(** * The BLS console front end (frontend/src/App.js): booking draft
      controller and live synchronisation core

    The React component tree of App.js is embedded as follows.

    - JavaScript values that come off the wire (push frames, Gateway
      replies) are kept dynamically typed ([value]); objects are finite maps
      from property names to values.
    - A handler is a function from the render snapshot it closes over
      ([state]) to a [run]: the ordered trace of the effects it performs
      (state-setter calls, Gateway requests, console output) and the way it
      ends (normally, or with an exception).  The next React state is the
      fold of the setter calls over the snapshot ([after]).
    - The Gateway is an oracle from requests to replies, and the platform's
      [JSON.parse] an oracle from text to values: both are parameters of the
      handlers. *)

From Stdlib Require Import Ascii String.
From stdpp Require Import gmap strings list pretty.

Set Warnings "-register-all".

(** ** JavaScript values *)

(** Numbers: the integer-valued numbers and NaN, which is all that parseInt
    produces and all that the modelled code inspects.  (Exact for magnitudes
    up to 2^53; the sign of zero and fractional numbers are outside the
    model.) *)
Inductive number :=
| NaN
| Int (z : Z).

Inductive value :=
| VUndefined
| VNull
| VBool (b : bool)
| VNum (n : number)
| VStr (s : string)
| VArr (l : list value)
| VObj (m : gmap string value).

(** ToBoolean, as used by [!x], [x || y] and [x && y]. *)
Definition truthy (v : value) : bool :=
  match v with
  | VUndefined | VNull => false
  | VBool b => b
  | VNum NaN => false
  | VNum (Int z) => negb (z =? 0)%Z
  | VStr EmptyString => false
  | VStr (String _ _) => true
  | VArr _ | VObj _ => true
  end.

(** [v.k] on a value that is neither null nor undefined.  Only own data
    properties are modelled; the keys App.js reads from wire values ([type],
    [data], [is_valid], [message], [is_running], [booking_id], [detail]) are
    not defined on any built-in prototype, so primitives and arrays answer
    undefined. *)
Definition own (v : value) (k : string) : value :=
  match v with
  | VObj m => default VUndefined (m !! k)
  | _ => VUndefined
  end.

Arguments own : simpl never.

Definition nullish (v : value) : bool :=
  match v with
  | VUndefined | VNull => true
  | _ => false
  end.

(** [v?.k] *)
Definition opt_prop (v : value) (k : string) : value :=
  if nullish v then VUndefined else own v k.

(** [v === 'literal'] *)
Definition is_str (v : value) (literal : string) : bool :=
  match v with
  | VStr s => bool_decide (s = literal)
  | _ => false
  end.

(** [a || b] on values. *)
Definition js_or (a b : value) : value := if truthy a then a else b.

(** ToString, as applied by a template literal. *)
Fixpoint ToString (v : value) : string :=
  match v with
  | VUndefined => "undefined"
  | VNull => "null"
  | VBool b => if b then "true" else "false"
  | VNum NaN => "NaN"
  | VNum (Int z) => pretty z
  | VStr s => s
  | VArr l =>
      String.concat ","
        (map (fun x => if nullish x then EmptyString else ToString x) l)
  | VObj _ => "[object Object]"
  end.

Arguments ToString : simpl never.

(** ** parseInt(string), radix omitted

    Strings are byte strings, so of the white space that parseInt skips
    only the ASCII part is recognised.  The result is the mathematical
    integer of the digits; JavaScript rounds it to a double, which is the
    same number up to 2^53 in magnitude ([safe_integer]), and statements
    about what parseInt reads are made for such integers only. *)

Definition is_white_space (c : ascii) : bool :=
  let n := N_of_ascii c in
  ((9 <=? n) && (n <=? 13))%N || (n =? 32)%N.

Fixpoint skip_white_space (s : string) : string :=
  match s with
  | String c rest => if is_white_space c then skip_white_space rest else s
  | EmptyString => s
  end.

Definition digit_value (radix : Z) (c : ascii) : option Z :=
  let n := Z.of_N (N_of_ascii c) in
  let d :=
    if ((48 <=? n) && (n <=? 57))%Z then Some (n - 48)%Z
    else if ((97 <=? n) && (n <=? 122))%Z then Some (n - 87)%Z
    else if ((65 <=? n) && (n <=? 90))%Z then Some (n - 55)%Z
    else None in
  match d with
  | Some v => if (v <? radix)%Z then Some v else None
  | None => None
  end.

(** The longest prefix of radix digits, as a mathematical integer; [acc] is
    [None] until a first digit has been read. *)
Fixpoint parse_digits (radix : Z) (acc : option Z) (s : string) : option Z :=
  match s with
  | EmptyString => acc
  | String c rest =>
      match digit_value radix c with
      | Some d => parse_digits radix (Some (radix * default 0 acc + d)%Z) rest
      | None => acc
      end
  end.

Definition parseInt (input : string) : number :=
  let s := skip_white_space input in
  let '(sign, s) :=
    match s with
    | String "-" rest => ((-1)%Z, rest)
    | String "+" rest => (1%Z, rest)
    | _ => (1%Z, s)
    end in
  let '(radix, s) :=
    match s with
    | String "0" (String "x" rest) => (16%Z, rest)
    | String "0" (String "X" rest) => (16%Z, rest)
    | _ => (10%Z, s)
    end in
  match parse_digits radix None s with
  | Some n => Int (sign * n)
  | None => NaN
  end.

(** ** Component state *)

(** [bookingForm] of BLSAutomation. *)
Record BookingForm := {
  location : string;
  visa_type : string;
  visa_sub_type : string;
  category : string;
  appointment_for : string;
  number_of_members : number;
  schengen_visa_history : string;
  has_premium_lounge : bool;
  family_group_eligible : bool;
  notes : string
}.

(** The part of the /bls/visa-info reply that the handlers read, typed as
    the Gateway documents it: a map from location to its ordered category
    list. *)
Record VisaInfo := {
  locations : list string;
  categories_by_location : gmap string (list string)
}.

(** The useState cells of App and BLSAutomation, and the module-level
    socket [ws]. *)
Record state := {
  applicants : value;
  credentials : value;
  systemStatus : value;
  bookings : value;
  loading : bool;
  message : value * string;
  visaInfo : option VisaInfo;
  bookingForm : BookingForm;
  categoryValidation : value;
  showValidationModal : bool;
  ws_open : bool
}.

Definition initial_bookingForm : BookingForm := {|
  location := "Oran";
  visa_type := "National Visa";
  visa_sub_type := "Tourism";
  category := "ORAN 1";
  appointment_for := "Individual";
  number_of_members := Int 1;
  schengen_visa_history := "never";
  has_premium_lounge := false;
  family_group_eligible := false;
  notes := EmptyString
|}.

Definition obj (fields : list (string * value)) : value :=
  VObj (list_to_map fields).

Definition initial_state : state := {|
  applicants := VArr [];
  credentials := VArr [];
  systemStatus := obj [("is_running", VBool false); ("current_task", VNull)];
  bookings := VArr [];
  loading := false;
  message := (VStr EmptyString, EmptyString);
  visaInfo := None;
  bookingForm := initial_bookingForm;
  categoryValidation :=
    obj [("is_valid", VBool true); ("message", VStr EmptyString);
         ("recommended_categories", VArr [])];
  showValidationModal := false;
  ws_open := true
|}.

(** ** Gateway requests and replies *)

Inductive body :=
| NoBody
| BookingBody (form : BookingForm)
| ValidateBody (location category schengen_visa_history : string).

(** Paths are relative to [API]. *)
Inductive request :=
| Get (path : string)
| Post (path : string) (b : body).

(** A reply either resolves with [response.data], or the request is
    rejected; [error.response.data] is present when the Gateway answered
    with an error status and absent on a network failure. *)
Inductive reply :=
| Resolved (data : value)
| Rejected (response : option value).

Inductive exn :=
| TypeError
| SyntaxError
| RequestFailed (response : option value).

(** [error.response?.data?.detail] *)
Definition error_detail (error : exn) : value :=
  match error with
  | RequestFailed (Some data) => opt_prop data "detail"
  | _ => VUndefined
  end.

(** ** Effects *)

Inductive effect :=
| Call (r : request)
| setApplicants (v : value)
| setCredentials (v : value)
| setSystemStatus (v : value)
| setBookings (v : value)
| setLoading (b : bool)
| setMessage (text : value) (type : string)
| setTimeout (ms : Z)
| setBookingForm (form : BookingForm)
| setCategoryValidation (v : value)
| setShowValidationModal (b : bool)
| console_log (label : string) (data : string)
| console_error (label : string)
| preventDefault
| ws_close.

(** The state written by one effect. *)
Definition apply (st : state) (e : effect) : state :=
  match e with
  | setApplicants v =>
      {| applicants := v; credentials := credentials st;
         systemStatus := systemStatus st; bookings := bookings st;
         loading := loading st; message := message st;
         visaInfo := visaInfo st; bookingForm := bookingForm st;
         categoryValidation := categoryValidation st;
         showValidationModal := showValidationModal st;
         ws_open := ws_open st |}
  | setCredentials v =>
      {| applicants := applicants st; credentials := v;
         systemStatus := systemStatus st; bookings := bookings st;
         loading := loading st; message := message st;
         visaInfo := visaInfo st; bookingForm := bookingForm st;
         categoryValidation := categoryValidation st;
         showValidationModal := showValidationModal st;
         ws_open := ws_open st |}
  | setSystemStatus v =>
      {| applicants := applicants st; credentials := credentials st;
         systemStatus := v; bookings := bookings st;
         loading := loading st; message := message st;
         visaInfo := visaInfo st; bookingForm := bookingForm st;
         categoryValidation := categoryValidation st;
         showValidationModal := showValidationModal st;
         ws_open := ws_open st |}
  | setBookings v =>
      {| applicants := applicants st; credentials := credentials st;
         systemStatus := systemStatus st; bookings := v;
         loading := loading st; message := message st;
         visaInfo := visaInfo st; bookingForm := bookingForm st;
         categoryValidation := categoryValidation st;
         showValidationModal := showValidationModal st;
         ws_open := ws_open st |}
  | setLoading b =>
      {| applicants := applicants st; credentials := credentials st;
         systemStatus := systemStatus st; bookings := bookings st;
         loading := b; message := message st;
         visaInfo := visaInfo st; bookingForm := bookingForm st;
         categoryValidation := categoryValidation st;
         showValidationModal := showValidationModal st;
         ws_open := ws_open st |}
  | setMessage text type =>
      {| applicants := applicants st; credentials := credentials st;
         systemStatus := systemStatus st; bookings := bookings st;
         loading := loading st; message := (text, type);
         visaInfo := visaInfo st; bookingForm := bookingForm st;
         categoryValidation := categoryValidation st;
         showValidationModal := showValidationModal st;
         ws_open := ws_open st |}
  | setBookingForm form =>
      {| applicants := applicants st; credentials := credentials st;
         systemStatus := systemStatus st; bookings := bookings st;
         loading := loading st; message := message st;
         visaInfo := visaInfo st; bookingForm := form;
         categoryValidation := categoryValidation st;
         showValidationModal := showValidationModal st;
         ws_open := ws_open st |}
  | setCategoryValidation v =>
      {| applicants := applicants st; credentials := credentials st;
         systemStatus := systemStatus st; bookings := bookings st;
         loading := loading st; message := message st;
         visaInfo := visaInfo st; bookingForm := bookingForm st;
         categoryValidation := v;
         showValidationModal := showValidationModal st;
         ws_open := ws_open st |}
  | setShowValidationModal b =>
      {| applicants := applicants st; credentials := credentials st;
         systemStatus := systemStatus st; bookings := bookings st;
         loading := loading st; message := message st;
         visaInfo := visaInfo st; bookingForm := bookingForm st;
         categoryValidation := categoryValidation st;
         showValidationModal := b;
         ws_open := ws_open st |}
  | ws_close =>
      {| applicants := applicants st; credentials := credentials st;
         systemStatus := systemStatus st; bookings := bookings st;
         loading := loading st; message := message st;
         visaInfo := visaInfo st; bookingForm := bookingForm st;
         categoryValidation := categoryValidation st;
         showValidationModal := showValidationModal st;
         ws_open := false |}
  | Call _ | setTimeout _ | console_log _ _ | console_error _
  | preventDefault => st
  end.

(** ** Handler runs *)

Inductive outcome (A : Type) :=
| Done (a : A)
| Thrown (e : exn).
Arguments Done {A} a.
Arguments Thrown {A} e.

(** [sync] is what the function does before its caller gets control back;
    [deferred] what it does after an await, once the reply is in;
    [suspended] says whether the function has passed an await. *)
Record run (A : Type) := Run {
  sync : list effect;
  deferred : list effect;
  suspended : bool;
  ending : outcome A
}.
Arguments Run {A} sync deferred suspended ending.
Arguments sync {A} r.
Arguments deferred {A} r.
Arguments suspended {A} r.
Arguments ending {A} r.

Definition ret {A} (a : A) : run A := Run [] [] false (Done a).

Definition throw {A} (e : exn) : run A := Run [] [] false (Thrown e).

Definition emit (e : effect) : run unit := Run [e] [] false (Done tt).

(** [k] takes over where a run with trace [s], [d] stopped: behind an
    await ([b]) everything is deferred. *)
Definition resume {B} (s d : list effect) (b : bool) (k : run B) : run B :=
  match k with
  | Run s2 d2 b2 o =>
      if b then Run s (d ++ s2 ++ d2) true o
      else Run (s ++ s2) (d ++ d2) b2 o
  end.

Definition bind {A B} (m : run A) (f : A -> run B) : run B :=
  match m with
  | Run s d b (Done a) => resume s d b (f a)
  | Run s d b (Thrown e) => Run s d b (Thrown e)
  end.

(** [try { m } catch (error) { handler error }] *)
Definition try_catch {A} (m : run A) (handler : exn -> run A) : run A :=
  match m with
  | Run s d b (Done a) => Run s d b (Done a)
  | Run s d b (Thrown e) => resume s d b (handler e)
  end.

(** [try { m } finally { cleanup }] *)
Definition try_finally {A} (m : run A) (cleanup : run unit) : run A :=
  match m with
  | Run s d b o =>
      match resume s d b cleanup with
      | Run s' d' b' (Done _) => Run s' d' b' o
      | Run s' d' b' (Thrown e) => Run s' d' b' (Thrown e)
      end
  end.

(** Calling an async function without awaiting it: the caller goes on as
    soon as the callee reaches its first await, and a rejection of the
    returned promise is not the caller's. *)
Definition spawn {A} (m : run A) : run unit :=
  match m with
  | Run s d _ _ => Run s d false (Done tt)
  end.

Notation "'let!' x := m 'in' k" := (bind m (fun x => k))
  (at level 10, x name, m at level 100, k at level 200).
Notation "m >> k" := (bind m (fun _ => k))
  (at level 100, k at level 200, right associativity).

(** [v.k]: a TypeError on null and undefined. *)
Definition prop (v : value) (k : string) : run value :=
  if nullish v then throw TypeError else ret (own v k).

Definition effects {A} (m : run A) : list effect := sync m ++ deferred m.

(** The state React renders next. *)
Definition after {A} (st : state) (m : run A) : state :=
  foldl apply st (effects m).

(** The Gateway requests a run sends, in order. *)
Definition calls {A} (m : run A) : list request :=
  omap (fun e => match e with Call r => Some r | _ => None end) (effects m).

(** A toast: a [setMessage] whose text is truthy (the message bar is
    rendered under [message.text && ...]).  The bar shows a text that is a
    string; statements about toasts are made for string texts only. *)
Definition is_notification (e : effect) : bool :=
  match e with
  | setMessage text _ => truthy text
  | _ => false
  end.

Definition notifications {A} (m : run A) : list effect :=
  List.filter is_notification (effects m).

(** ** The handlers of App *)

Section Handlers.

(** The Gateway behind axios, and the platform's JSON.parse ([None] when it
    throws a SyntaxError). *)
Variable gateway : request -> reply.
Variable JSON_parse : string -> option value.

(** [(await axios.get(`${API}${path}`)).data] *)
Definition axios_get (path : string) : run value :=
  Run [Call (Get path)] [] true
      match gateway (Get path) with
      | Resolved data => Done data
      | Rejected response => Thrown (RequestFailed response)
      end.

(** [(await axios.post(`${API}${path}`, b)).data] *)
Definition axios_post (path : string) (b : body) : run value :=
  Run [Call (Post path b)] [] true
      match gateway (Post path b) with
      | Resolved data => Done data
      | Rejected response => Thrown (RequestFailed response)
      end.

Definition showMessage (text : value) (type : string) : run unit :=
  emit (setMessage text type) >>
  emit (setTimeout 5000).

Definition fetchApplicants : run unit :=
  try_catch
    (let! data := axios_get "/applicants" in
     emit (setApplicants data))
    (fun error =>
       emit (console_error "Error fetching applicants:") >>
       showMessage (VStr "Error fetching applicants") "error").

Definition fetchCredentials : run unit :=
  try_catch
    (let! data := axios_get "/credentials" in
     emit (setCredentials data))
    (fun error =>
       emit (console_error "Error fetching credentials:") >>
       showMessage (VStr "Error fetching credentials") "error").

Definition fetchSystemStatus : run unit :=
  try_catch
    (let! data := axios_get "/bls/status" in
     emit (setSystemStatus data))
    (fun error => emit (console_error "Error fetching system status:")).

Definition fetchBookings : run unit :=
  try_catch
    (let! data := axios_get "/bls/bookings" in
     emit (setBookings data))
    (fun error => emit (console_error "Error fetching bookings:")).

(** [ws.onmessage]; [event_data] is [event.data].  The chain of comparisons
    reads [data.type] once here and once per comparison in the source; the
    read has no effect, and it throws on the first comparison or never. *)
Definition onmessage (event_data : string) : run unit :=
  try_catch
    (let! data :=
       match JSON_parse event_data with
       | Some v => ret v
       | None => throw SyntaxError
       end in
     let! type := prop data "type" in
     if is_str type "applicant_created" || is_str type "applicant_updated"
     then spawn fetchApplicants
     else if is_str type "credential_created"
             || is_str type "credential_updated"
     then spawn fetchCredentials
     else if is_str type "system_status" || is_str type "system_started"
             || is_str type "system_stopped"
     then (let! status := prop data "data" in
           emit (setSystemStatus status))
     else if is_str type "booking_completed"
     then (spawn fetchBookings >>
           showMessage (VStr "Booking completed successfully!") "success")
     else ret tt)
    (fun error => emit (console_log "WebSocket message received:" event_data)).

(** The cleanup of the socket effect. *)
Definition ws_cleanup (st : state) : run unit :=
  if ws_open st then emit ws_close else ret tt.

(** The timer set by [showMessage] fires. *)
Definition message_timeout : run unit :=
  emit (setMessage (VStr EmptyString) EmptyString).

(** ** The handlers of BLSAutomation *)

Definition with_location_category (form : BookingForm)
  (new_location new_category : string) : BookingForm :=
  {| location := new_location;
     visa_type := visa_type form;
     visa_sub_type := visa_sub_type form;
     category := new_category;
     appointment_for := appointment_for form;
     number_of_members := number_of_members form;
     schengen_visa_history := schengen_visa_history form;
     has_premium_lounge := has_premium_lounge form;
     family_group_eligible := family_group_eligible form;
     notes := notes form |}.

Definition with_schengen_visa_history (form : BookingForm)
  (history : string) : BookingForm :=
  {| location := location form;
     visa_type := visa_type form;
     visa_sub_type := visa_sub_type form;
     category := category form;
     appointment_for := appointment_for form;
     number_of_members := number_of_members form;
     schengen_visa_history := history;
     has_premium_lounge := has_premium_lounge form;
     family_group_eligible := family_group_eligible form;
     notes := notes form |}.

Definition with_appointment_for (form : BookingForm)
  (who : string) : BookingForm :=
  {| location := location form;
     visa_type := visa_type form;
     visa_sub_type := visa_sub_type form;
     category := category form;
     appointment_for := who;
     number_of_members := number_of_members form;
     schengen_visa_history := schengen_visa_history form;
     has_premium_lounge := has_premium_lounge form;
     family_group_eligible := family_group_eligible form;
     notes := notes form |}.

Definition with_number_of_members (form : BookingForm)
  (n : number) : BookingForm :=
  {| location := location form;
     visa_type := visa_type form;
     visa_sub_type := visa_sub_type form;
     category := category form;
     appointment_for := appointment_for form;
     number_of_members := n;
     schengen_visa_history := schengen_visa_history form;
     has_premium_lounge := has_premium_lounge form;
     family_group_eligible := family_group_eligible form;
     notes := notes form |}.

(** The request carries [bookingForm.location] of the render the caller
    closed over. *)
Definition validateCategory (st : state)
  (category schengenHistory : string) : run unit :=
  try_catch
    (let! data :=
       axios_post "/bls/validate-category"
         (ValidateBody (location (bookingForm st)) category
            schengenHistory) in
     emit (setCategoryValidation data) >>
     let! is_valid := prop data "is_valid" in
     if negb (truthy is_valid)
     then (let! text := prop data "message" in
           showMessage text "error")
     else ret tt)
    (fun error => emit (console_error "Error validating category:")).

(** [categories[0] || 'ORAN 1'] *)
Definition first_category (categories : list string) : string :=
  match categories with
  | String c rest :: _ => String c rest
  | _ => "ORAN 1"
  end.

(** [visaInfo.categories_by_location[location] || []] *)
Definition categories_of (info : VisaInfo) (location : string)
  : list string :=
  default [] (categories_by_location info !! location).

Definition handleLocationChange (st : state) (location : string)
  : run unit :=
  match visaInfo st with
  | None => ret tt
  | Some info =>
      let categories := categories_of info location in
      let newCategory := first_category categories in
      emit (setBookingForm
              (with_location_category (bookingForm st) location
                 newCategory)) >>
      spawn (validateCategory st newCategory
               (schengen_visa_history (bookingForm st)))
  end.

Definition handleSchengenHistoryChange (st : state) (history : string)
  : run unit :=
  emit (setBookingForm
          (with_schengen_visa_history (bookingForm st) history)) >>
  spawn (validateCategory st (category (bookingForm st)) history).

(** The event handed to a submit handler: the form's own, or the stub
    [{ preventDefault: () => {} }]. *)
Inductive event :=
| SubmitEvent
| StubEvent.

Definition e_preventDefault (e : event) : run unit :=
  match e with
  | SubmitEvent => emit preventDefault
  | StubEvent => ret tt
  end.

Definition handleBookAppointment (st : state) (e : event) : run unit :=
  e_preventDefault e >>
  let! is_valid := prop (categoryValidation st) "is_valid" in
  if negb (truthy is_valid)
  then emit (setShowValidationModal true)
  else
    emit (setLoading true) >>
    try_finally
      (try_catch
         (let! data :=
            axios_post "/bls/book-appointment"
              (BookingBody (bookingForm st)) in
          let! booking_id := prop data "booking_id" in
          showMessage
            (VStr ("Appointment booking completed! ID: "
                   +:+ ToString booking_id))
            "success")
         (fun error =>
            let errorMessage :=
              js_or (error_detail error)
                    (VStr "Error booking appointment") in
            showMessage errorMessage "error" >>
            emit (console_error "Error booking appointment:")))
      (emit (setLoading false)).

(** onClick of the modal's "Proceed Anyway" button. *)
Definition proceedAnyway (st : state) : run unit :=
  emit (setShowValidationModal false) >>
  spawn (handleBookAppointment st StubEvent).

(** onClick of the modal's "Review Selection" button. *)
Definition reviewSelection : run unit :=
  emit (setShowValidationModal false).

(** onChange of the "Appointment For" select. *)
Definition onChange_appointment_for (st : state) (target_value : string)
  : run unit :=
  emit (setBookingForm (with_appointment_for (bookingForm st) target_value)).

(** onChange of the "Number of Members" input; [target_value] is
    [e.target.value].  The input is rendered only while
    [bookingForm.appointment_for === 'Family']. *)
Definition onChange_number_of_members (st : state) (target_value : string)
  : run unit :=
  emit (setBookingForm
          (with_number_of_members (bookingForm st) (parseInt target_value))).

(** [disabled={loading || !systemStatus.is_running}] of the form's submit
    button. *)
Definition submit_disabled (st : state) : run bool :=
  if loading st then ret true
  else
    let! is_running := prop (systemStatus st) "is_running" in
    ret (negb (truthy is_running)).

(** The operator activates the form's "Book Appointment" button: a disabled
    button (or one that failed to render) submits nothing, otherwise the
    form's onSubmit runs.  The browser's own validation of the form, which
    can also hold a submit back, is not part of this function: statements
    that a submit goes out assume [form_constraints_met]. *)
Definition click_submit (st : state) : run unit :=
  match ending (submit_disabled st) with
  | Done false => spawn (handleBookAppointment st SubmitEvent)
  | _ => ret tt
  end.

End Handlers.

(** ** A reader for JSON text

    The handlers take JSON.parse as a parameter.  To run them on frames, this
    is a reader for the fragment of JSON whose numbers are integers; text
    outside the fragment is refused. *)

Definition dquote : ascii := "034"%char.

Definition is_json_space (c : ascii) : bool :=
  match c with
  | " "%char | "009"%char | "010"%char | "013"%char => true
  | _ => false
  end.

Fixpoint skip_json_space (s : string) : string :=
  match s with
  | String c rest => if is_json_space c then skip_json_space rest else s
  | EmptyString => s
  end.

Fixpoint strip_prefix (p s : string) : option string :=
  match p, s with
  | EmptyString, _ => Some s
  | String a p', String b s' =>
      if bool_decide (a = b) then strip_prefix p' s' else None
  | String _ _, EmptyString => None
  end.

Definition unescape (c : ascii) : option ascii :=
  match c with
  | "034"%char => Some "034"%char
  | "\"%char => Some "\"%char
  | "/"%char => Some "/"%char
  | "b"%char => Some "008"%char
  | "f"%char => Some "012"%char
  | "n"%char => Some "010"%char
  | "r"%char => Some "013"%char
  | "t"%char => Some "009"%char
  | _ => None
  end.

(** The characters of a string literal after its opening quote, and the
    text after its closing quote. *)
Fixpoint read_string (s : string) : option (string * string) :=
  match s with
  | EmptyString => None
  | String "034"%char rest => Some (EmptyString, rest)
  | String "\"%char (String c rest) =>
      match unescape c, read_string rest with
      | Some c', Some (tail, rest') => Some (String c' tail, rest')
      | _, _ => None
      end
  | String "\"%char EmptyString => None
  | String c rest =>
      if (N_of_ascii c <? 32)%N then None
      else match read_string rest with
           | Some (tail, rest') => Some (String c tail, rest')
           | None => None
           end
  end.

Fixpoint read_digits (acc : option Z) (s : string) : option Z * string :=
  match s with
  | EmptyString => (acc, s)
  | String c rest =>
      match digit_value 10 c with
      | Some d => read_digits (Some (10 * default 0 acc + d)%Z) rest
      | None => (acc, s)
      end
  end.

Definition read_number (s : string) : option (value * string) :=
  let '(sign, digits) :=
    match s with
    | String "-"%char rest => ((-1)%Z, rest)
    | _ => (1%Z, s)
    end in
  match digits with
  | String "0"%char (String c _) =>
      match digit_value 10 c with
      | Some _ => None
      | None =>
          match read_digits None digits with
          | (Some n, String "."%char _) | (Some n, String "e"%char _)
          | (Some n, String "E"%char _) => None
          | (Some n, rest) => Some (VNum (Int (sign * n)), rest)
          | (None, _) => None
          end
      end
  | _ =>
      match read_digits None digits with
      | (Some n, String "."%char _) | (Some n, String "e"%char _)
      | (Some n, String "E"%char _) => None
      | (Some n, rest) => Some (VNum (Int (sign * n)), rest)
      | (None, _) => None
      end
  end.

Definition read_literal (word : string) (v : value) (s : string)
  : option (value * string) :=
  match strip_prefix word s with
  | Some rest => Some (v, rest)
  | None => None
  end.

Fixpoint read_value (fuel : nat) (s : string) {struct fuel}
  : option (value * string) :=
  match fuel with
  | O => None
  | S fuel' =>
      let s := skip_json_space s in
      match s with
      | String "n"%char _ => read_literal "null" VNull s
      | String "t"%char _ => read_literal "true" (VBool true) s
      | String "f"%char _ => read_literal "false" (VBool false) s
      | String "034"%char rest =>
          match read_string rest with
          | Some (text, rest') => Some (VStr text, rest')
          | None => None
          end
      | String "["%char rest =>
          match skip_json_space rest with
          | String "]"%char rest' => Some (VArr [], rest')
          | _ =>
              match read_elements fuel' rest with
              | Some (l, rest') => Some (VArr l, rest')
              | None => None
              end
          end
      | String "{"%char rest =>
          match skip_json_space rest with
          | String "}"%char rest' => Some (VObj ∅, rest')
          | _ =>
              match read_members fuel' ∅ rest with
              | Some (m, rest') => Some (VObj m, rest')
              | None => None
              end
          end
      | _ => read_number s
      end
  end
with read_elements (fuel : nat) (s : string) {struct fuel}
  : option (list value * string) :=
  match fuel with
  | O => None
  | S fuel' =>
      match read_value fuel' s with
      | Some (v, rest) =>
          match skip_json_space rest with
          | String ","%char rest' =>
              match read_elements fuel' rest' with
              | Some (l, rest'') => Some (v :: l, rest'')
              | None => None
              end
          | String "]"%char rest' => Some ([v], rest')
          | _ => None
          end
      | None => None
      end
  end
with read_members (fuel : nat) (acc : gmap string value) (s : string)
  {struct fuel} : option (gmap string value * string) :=
  match fuel with
  | O => None
  | S fuel' =>
      match skip_json_space s with
      | String "034"%char rest =>
          match read_string rest with
          | Some (key, rest1) =>
              match skip_json_space rest1 with
              | String ":"%char rest2 =>
                  match read_value fuel' rest2 with
                  | Some (v, rest3) =>
                      match skip_json_space rest3 with
                      | String ","%char rest4 =>
                          read_members fuel' (<[key:=v]> acc) rest4
                      | String "}"%char rest4 =>
                          Some (<[key:=v]> acc, rest4)
                      | _ => None
                      end
                  | None => None
                  end
              | _ => None
              end
          | None => None
          end
      | _ => None
      end
  end.

Definition parse_json (text : string) : option value :=
  match read_value (2 * String.length text + 2) text with
  | Some (v, rest) =>
      match skip_json_space rest with
      | EmptyString => Some v
      | String _ _ => None
      end
  | None => None
  end.

(** [quoted s] is the JSON string literal of a text without special
    characters. *)
Definition quoted (s : string) : string :=
  String dquote (s +:+ String dquote EmptyString).

(** ** Properties of a render snapshot *)

(** The last verdict says invalid: [!categoryValidation.is_valid] holds. *)
Definition verdict_invalid (st : state) : Prop :=
  nullish (categoryValidation st) = false /\
  truthy (own (categoryValidation st) "is_valid") = false.

(** The last verdict says valid. *)
Definition verdict_valid (st : state) : Prop :=
  nullish (categoryValidation st) = false /\
  truthy (own (categoryValidation st) "is_valid") = true.


(** The event types of the dispatch table. *)
Definition recognized_types : list string :=
  [ "applicant_created"; "applicant_updated";
    "credential_created"; "credential_updated";
    "system_status"; "system_started"; "system_stopped";
    "booking_completed" ].

Definition recognized (type : value) : bool :=
  existsb (is_str type) recognized_types.

Definition status_types : list string :=
  [ "system_status"; "system_started"; "system_stopped" ].

Definition book_appointment (form : BookingForm) : request :=
  Post "/bls/book-appointment" (BookingBody form).

(** ** Sample Gateways, snapshots and frames *)

Definition gateway_down (r : request) : reply := Rejected None.

Definition valid_verdict : value :=
  obj [("is_valid", VBool true); ("message", VStr EmptyString);
       ("recommended_categories", VArr [])].

Definition invalid_verdict : value :=
  obj [("is_valid", VBool false);
       ("message", VStr "ORAN 1 is for applicants without a prior visa");
       ("recommended_categories", VArr [VStr "ORAN 2"])].

Definition gateway_up (r : request) : reply :=
  match r with
  | Post "/bls/book-appointment" _ =>
      Resolved (obj [("booking_id", VStr "b-0001")])
  | Post "/bls/validate-category" _ => Resolved valid_verdict
  | Get "/bls/status" =>
      Resolved (obj [("is_running", VBool true); ("current_task", VNull)])
  | _ => Resolved (VArr [])
  end.

Definition sample_visaInfo : VisaInfo := {|
  locations := ["Oran"; "Alger"];
  categories_by_location :=
    {[ "Oran" := ["ORAN 1"; "ORAN 2"]; "Alger" := [] ]}
|}.

Definition with_visaInfo (st : state) (info : VisaInfo) : state :=
  {| applicants := applicants st; credentials := credentials st;
     systemStatus := systemStatus st; bookings := bookings st;
     loading := loading st; message := message st;
     visaInfo := Some info; bookingForm := bookingForm st;
     categoryValidation := categoryValidation st;
     showValidationModal := showValidationModal st;
     ws_open := ws_open st |}.

(** Visa information loaded, nothing else touched. *)
Definition loaded_state : state := with_visaInfo initial_state sample_visaInfo.

(** The Validator has rejected the current selection. *)
Definition invalid_state : state :=
  apply loaded_state (setCategoryValidation invalid_verdict).

(** The automation runs and the verdict is valid. *)
Definition running_state : state :=
  apply loaded_state
    (setSystemStatus
       (obj [("is_running", VBool true); ("current_task", VNull)])).

(** A family booking is being drafted. *)
Definition family_state : state :=
  apply loaded_state
    (setBookingForm (with_appointment_for initial_bookingForm "Family")).

Definition frame_unknown : string :=
  "{" +:+ quoted "type" +:+ ":" +:+ quoted "booking_failed" +:+ "}".

Definition frame_stopped : string :=
  "{" +:+ quoted "type" +:+ ":" +:+ quoted "system_stopped" +:+ ","
  +:+ quoted "data" +:+ ":{" +:+ quoted "is_running" +:+ ":false}}".

Definition frame_malformed : string := "pong".

(** What [frame_stopped] parses to. *)
Definition stopped_event : value :=
  obj [("type", VStr "system_stopped");
       ("data", obj [("is_running", VBool false)])].

(** ** Further handlers of BLSAutomation and CredentialsManagement

    Where one of these calls a refresh without awaiting it behind its own
    await ([onStatusChange()], [onRefresh()]), the trace lists what the
    refresh does at the place of the call; the refresh writes its own
    collection only. *)

Section OtherHandlers.

Variable gateway : request -> reply.

Definition with_category (form : BookingForm) (new_category : string)
  : BookingForm :=
  {| location := location form;
     visa_type := visa_type form;
     visa_sub_type := visa_sub_type form;
     category := new_category;
     appointment_for := appointment_for form;
     number_of_members := number_of_members form;
     schengen_visa_history := schengen_visa_history form;
     has_premium_lounge := has_premium_lounge form;
     family_group_eligible := family_group_eligible form;
     notes := notes form |}.

Definition handleCategoryChange (st : state) (category : string)
  : run unit :=
  emit (setBookingForm (with_category (bookingForm st) category)) >>
  spawn (validateCategory gateway st category
           (schengen_visa_history (bookingForm st))).

(** [onStatusChange] is App's [fetchSystemStatus]. *)
Definition handleStartSystem : run unit :=
  emit (setLoading true) >>
  try_finally
    (try_catch
       (let! _ := axios_post gateway "/bls/start" NoBody in
        showMessage (VStr "BLS automation system started!") "success" >>
        spawn (fetchSystemStatus gateway))
       (fun error =>
          showMessage (VStr "Error starting system") "error" >>
          emit (console_error "Error starting system:")))
    (emit (setLoading false)).

Definition handleStopSystem : run unit :=
  emit (setLoading true) >>
  try_finally
    (try_catch
       (let! _ := axios_post gateway "/bls/stop" NoBody in
        showMessage (VStr "BLS automation system stopped!") "success" >>
        spawn (fetchSystemStatus gateway))
       (fun error =>
          showMessage (VStr "Error stopping system") "error" >>
          emit (console_error "Error stopping system:")))
    (emit (setLoading false)).



End OtherHandlers.

(** ** The table of BookingHistory

    A row is modelled by the values of the expressions in its cells.  The
    date cell keeps the raw [created_at] that the platform formats. *)

Record BookingRow := {
  row_id : string;
  row_location : value;
  row_visa_type : value;
  row_category : value;
  row_schengen_history : value;
  row_status_class : string;
  row_status : value;
  row_date : option value
}.

(** [booking.booking_details?.k || booking.booking_request?.k || 'N/A'] *)
Definition details_or_request (booking : value) (k : string) : value :=
  js_or (js_or (opt_prop (own booking "booking_details") k)
               (opt_prop (own booking "booking_request") k))
        (VStr "N/A").

Definition status_class (status : value) : string :=
  if is_str status "completed" then "bg-green-100 text-green-800"
  else if is_str status "pending" then "bg-yellow-100 text-yellow-800"
  else "bg-red-100 text-red-800".

(** The cells of one [<tr>], for a booking whose id is the string
    [text].  (Ids are taken to be ASCII, where bytes and UTF-16 code units
    coincide.) *)
Definition row_of (booking : value) (text : string) : BookingRow :=
  {| row_id := substring 0 8 text +:+ "...";
     row_location := details_or_request booking "location";
     row_visa_type := details_or_request booking "visa_type";
     row_category := details_or_request booking "category";
     row_schengen_history :=
       js_or (opt_prop (own booking "booking_details") "schengen_history")
             (VStr "N/A");
     row_status_class := status_class (own booking "status");
     row_status := js_or (own booking "status") (VStr "Unknown");
     row_date :=
       if truthy (own booking "created_at")
       then Some (own booking "created_at") else None |}.

(** One [<tr>]: [booking.id.substring(0, 8)] needs a booking that is not
    null or undefined and whose id is a string. *)
Definition booking_row (booking : value) : run BookingRow :=
  let! id := prop booking "id" in
  match id with
  | VStr text => ret (row_of booking text)
  | _ => throw TypeError
  end.

(** [array.map(f)] with an [f] that may throw. *)
Fixpoint map_run {A B} (f : A -> run B) (l : list A) : run (list B) :=
  match l with
  | [] => ret []
  | x :: rest =>
      let! y := f x in
      let! ys := map_run f rest in
      ret (y :: ys)
  end.

(** The table body [bookings.map(...)] and whether the "No bookings found"
    notice ([bookings.length === 0]) is shown.  [Thrown] is an exception of
    the cell expressions; [Done] says that they all evaluated, after which
    React can still refuse a cell whose value is an object. *)
Definition BookingHistory (bookings : value) : run (list BookingRow * bool) :=
  match bookings with
  | VArr l =>
      let! rows := map_run booking_row l in
      ret (rows, bool_decide (l = []))
  | _ => throw TypeError
  end.

(** ** Names for the statements *)

Definition applicant_types : list string :=
  [ "applicant_created"; "applicant_updated" ].

Definition credential_types : list string :=
  [ "credential_created"; "credential_updated" ].

(** The request [validateCategory] sends from the snapshot [st]. *)
Definition validate_request (st : state) (category history : string)
  : request :=
  Post "/bls/validate-category"
    (ValidateBody (location (bookingForm st)) category history).



(** ** More sample Gateways and values *)

(** The Gateway refuses bookings with a reason and answers the rest. *)
Definition gateway_refuses (r : request) : reply :=
  match r with
  | Post "/bls/book-appointment" _ =>
      Rejected (Some (obj [("detail", VStr "No slots available")]))
  | _ => gateway_up r
  end.

(** The Validator rejects every selection. *)
Definition gateway_strict (r : request) : reply :=
  match r with
  | Post "/bls/validate-category" _ => Resolved invalid_verdict
  | _ => gateway_up r
  end.

(** Every request resolves with the same reply. *)
Definition gateway_const (data : value) (r : request) : reply :=
  Resolved data.

Definition sample_bookings : value :=
  VArr [ obj [("id", VStr "3f2a9c1e-77aa"); ("status", VStr "completed");
              ("booking_details", obj [("location", VStr "Oran")])];
         obj [("id", VStr "b-2");
              ("booking_request", obj [("location", VStr "Alger")])] ].

(** Every collection fetch resolves with entries. *)
Definition gateway_full (r : request) : reply :=
  match r with
  | Get "/applicants" =>
      Resolved (VArr [obj [("id", VStr "a-1"); ("first_name", VStr "Amina")]])
  | Get "/credentials" => Resolved (VArr [obj [("id", VStr "c-1")]])
  | Get "/bls/bookings" => Resolved sample_bookings
  | _ => gateway_up r
  end.

Definition frame_applicant : string :=
  "{" +:+ quoted "type" +:+ ":" +:+ quoted "applicant_created" +:+ "}".

Definition applicant_event : value :=
  obj [("type", VStr "applicant_created")].

Definition frame_booking : string :=
  "{" +:+ quoted "type" +:+ ":" +:+ quoted "booking_completed" +:+ "}".

Definition booking_event : value :=
  obj [("type", VStr "booking_completed")].

Definition error_reply : value :=
  obj [("detail", VStr "Not authenticated")].

Definition bare_booking : value := obj [("id", VStr "b-3")].

Definition request_only_booking : value :=
  obj [("id", VStr "b-2");
       ("booking_request",
        obj [("location", VStr "Alger");
             ("schengen_history", VStr "never")])].

(** ** Further render expressions, conditions and samples *)

(** What [validateCategory] does once the reply to its request is in. *)
Definition validation_outcome (r : reply) : list effect :=
  match r with
  | Resolved data =>
      setCategoryValidation data ::
      (if nullish data
       then [console_error "Error validating category:"]
       else if truthy (own data "is_valid") then []
       else [setMessage (own data "message") "error"; setTimeout 5000])
  | Rejected _ => [console_error "Error validating category:"]
  end.

(** The border class in the className of the category select,
    [categoryValidation.is_valid ? 'border-gray-300' : 'border-red-500'],
    which every render of the booking form evaluates. *)
Definition category_select_border (st : state) : run string :=
  let! is_valid := prop (categoryValidation st) "is_valid" in
  ret (if truthy is_valid then "border-gray-300" else "border-red-500").

(** The booking form has no [noValidate], so before the browser fires its
    submit event it checks the one constrained control, the members input
    ([type="number" min="1" max="10"]), which is rendered in a Family draft
    only.  This is a condition under which that check passes. *)
Definition members_in_range (form : BookingForm) : bool :=
  match number_of_members form with
  | Int n => (1 <=? n)%Z && (n <=? 10)%Z
  | NaN => false
  end.

Definition form_constraints_met (form : BookingForm) : bool :=
  negb (bool_decide (appointment_for form = "Family"))
  || members_in_range form.

(** Texts on which bytes and UTF-16 code units coincide. *)
Definition is_ascii (text : string) : bool :=
  forallb (fun c => (N_of_ascii c <? 128)%N) (list_ascii_of_string text).

(** The JavaScript numbers that are integers exactly: up to 2^53 in
    magnitude. *)
Definition safe_integer (n : Z) : Prop :=
  (- 2 ^ 53 <= n <= 2 ^ 53)%Z.

Definition two_city_visaInfo : VisaInfo := {|
  locations := ["Oran"; "Alger"];
  categories_by_location :=
    {[ "Oran" := ["ORAN 1"; "ORAN 2"];
       "Alger" := ["ALGIERS 1"; "ALGIERS 2"] ]}
|}.

(** Both cities have categories; the draft is still the initial one, for
    Oran. *)
Definition two_city_state : state :=
  with_visaInfo initial_state two_city_visaInfo.

(** A booking without an id. *)
Definition idless_booking : value := obj [("status", VStr "pending")].

(** * Verification *)

(** ** Running a handler *)

Lemma prop_defined (v : value) (k : string) :
  nullish v = false -> prop v k = ret (own v k).
Proof. intros Hv. unfold prop. now rewrite Hv. Qed.

Lemma prop_nullish (v : value) (k : string) :
  nullish v = true -> prop v k = throw TypeError.
Proof. intros Hv. unfold prop. now rewrite Hv. Qed.

Lemma is_str_nullish (v : value) (k literal : string) :
  is_str (own v k) literal = true -> nullish v = false.
Proof. destruct v; unfold own; cbn; congruence. Qed.

Lemma not_recognized (type : value) :
  recognized type = false ->
  Forall (fun literal => is_str type literal = false) recognized_types.
Proof.
  unfold recognized. intros H. apply Forall_forall. intros literal Hin.
  destruct (is_str type literal) eqn:Hl; [|reflexivity].
  assert (existsb (is_str type) recognized_types = true) as Habs.
  { apply existsb_exists. exists literal. split; [|exact Hl].
    now apply list_elem_of_In. }
  congruence.
Qed.

Lemma bind_ret {A B} (a : A) (f : A -> run B) : bind (ret a) f = f a.
Proof. unfold bind, ret, resume. now destruct (f a). Qed.

(** An effect followed by an un-awaited call. *)
Lemma effects_emit_spawn {A} (e : effect) (m : run A) :
  effects (emit e >> spawn m) = e :: effects m.
Proof. destruct m as [s d b o]. reflexivity. Qed.

(** Unfold the combinators of [run] and evaluate. *)
Ltac run_step :=
  unfold effects, calls, after, notifications, try_finally, try_catch, bind,
    resume, spawn, showMessage, emit, ret, throw, axios_get, axios_post;
  cbn.

(** ** The booking draft controller *)

Section Controller.

Variable gateway : request -> reply.

(** C2.  With an invalid verdict, the form's submit handler sends nothing to
    the Gateway: it ends normally, having only raised the validation modal
    (the confirmation-required state). *)
Theorem submit_invalid_sends_nothing (st : state) (e : event) :
  verdict_invalid st ->
  calls (handleBookAppointment gateway st e) = [] /\
  ending (handleBookAppointment gateway st e) = Done tt /\
  showValidationModal (after st (handleBookAppointment gateway st e)) = true.
Proof.
  intros [Hobj Hfalse]. unfold handleBookAppointment.
  rewrite (prop_defined _ _ Hobj).
  destruct e; cbn; rewrite Hfalse; cbn; auto.
Qed.

(** C1 (the code at the failing input).  "Proceed Anyway" runs the same
    submit handler on the same snapshot: with an invalid verdict it sends
    nothing to the Gateway and leaves the validation modal raised. *)
Theorem proceedAnyway_invalid_sends_nothing (st : state) :
  verdict_invalid st ->
  calls (proceedAnyway gateway st) = [] /\
  showValidationModal (after st (proceedAnyway gateway st)) = true.
Proof.
  intros [Hobj Hfalse]. unfold proceedAnyway, handleBookAppointment.
  rewrite (prop_defined _ _ Hobj). cbn. rewrite Hfalse. cbn. auto.
Qed.


(** A submission that passes the verdict check sends the snapshot's draft,
    as it is, exactly once, whatever the Gateway answers. *)
Lemma handleBookAppointment_valid_calls (st : state) (e : event) :
  verdict_valid st ->
  calls (handleBookAppointment gateway st e) =
    [book_appointment (bookingForm st)].
Proof.
  intros [Hobj Htrue]. unfold handleBookAppointment.
  rewrite (prop_defined _ _ Hobj).
  destruct e; run_step; rewrite Htrue; run_step;
    (destruct (gateway _) as [data | response]; run_step; [|reflexivity]);
    (destruct (nullish data) eqn:Hnull;
     [rewrite (prop_nullish _ _ Hnull) | rewrite (prop_defined _ _ Hnull)]);
    reflexivity.
Qed.

(** The modal's button is not behind the submit button's guard: with a valid
    verdict in the snapshot it sends the booking whatever the status says. *)
Lemma proceedAnyway_valid_calls (st : state) :
  verdict_valid st ->
  calls (proceedAnyway gateway st) = [book_appointment (bookingForm st)].
Proof.
  intros Hvalid.
  rewrite <- (handleBookAppointment_valid_calls st StubEvent Hvalid).
  unfold proceedAnyway, calls. now rewrite effects_emit_spawn.
Qed.



End Controller.

(** ** The live synchronisation core *)

Section LiveSync.

Variable gateway : request -> reply.
Variable JSON_parse : string -> option value.

(** A frame whose type the dispatch table does not list leaves no trace at
    all, unless the frame is the value null, which is logged. *)
Lemma onmessage_unrecognized (event_data : string) (data : value) :
  JSON_parse event_data = Some data ->
  recognized (own data "type") = false ->
  ending (onmessage gateway JSON_parse event_data) = Done tt /\
  effects (onmessage gateway JSON_parse event_data) =
    if nullish data
    then [console_log "WebSocket message received:" event_data]
    else [].
Proof.
  intros Hparse Hunknown. unfold onmessage. rewrite Hparse, bind_ret.
  destruct (nullish data) eqn:Hnull.
  - rewrite (prop_nullish _ _ Hnull). run_step. auto.
  - rewrite (prop_defined _ _ Hnull). run_step.
    apply not_recognized in Hunknown.
    unfold recognized_types in Hunknown.
    repeat match goal with
           | H : Forall _ (_ :: _) |- _ =>
               apply Forall_cons in H as [-> H]
           end.
    cbn. auto.
Qed.

(** C5.  A frame that parses to a value whose type is not in the dispatch
    table makes the handler end normally, send nothing to the Gateway and
    leave the four collections as they were. *)
Theorem unknown_type_changes_nothing
  (st : state) (event_data : string) (data : value) :
  JSON_parse event_data = Some data ->
  recognized (own data "type") = false ->
  ending (onmessage gateway JSON_parse event_data) = Done tt /\
  calls (onmessage gateway JSON_parse event_data) = [] /\
  applicants (after st (onmessage gateway JSON_parse event_data))
    = applicants st /\
  credentials (after st (onmessage gateway JSON_parse event_data))
    = credentials st /\
  bookings (after st (onmessage gateway JSON_parse event_data))
    = bookings st /\
  systemStatus (after st (onmessage gateway JSON_parse event_data))
    = systemStatus st.
Proof.
  intros Hparse Hunknown.
  destruct (onmessage_unrecognized _ _ Hparse Hunknown) as [Hend Htrace].
  split; [exact Hend|].
  unfold calls, after. rewrite Htrace.
  destruct (nullish data); cbn; auto.
Qed.

(** C6.  A frame that JSON.parse refuses is logged and dropped: the handler
    ends normally, its only effect is the console line carrying the raw
    frame, the socket stays open and the four collections stay as they
    were. *)
Theorem malformed_frame_logged_and_dropped
  (st : state) (event_data : string) :
  JSON_parse event_data = None ->
  ending (onmessage gateway JSON_parse event_data) = Done tt /\
  effects (onmessage gateway JSON_parse event_data) =
    [console_log "WebSocket message received:" event_data] /\
  ws_open (after st (onmessage gateway JSON_parse event_data))
    = ws_open st /\
  applicants (after st (onmessage gateway JSON_parse event_data))
    = applicants st /\
  credentials (after st (onmessage gateway JSON_parse event_data))
    = credentials st /\
  bookings (after st (onmessage gateway JSON_parse event_data))
    = bookings st /\
  systemStatus (after st (onmessage gateway JSON_parse event_data))
    = systemStatus st.
Proof.
  intros Hparse. unfold onmessage. rewrite Hparse. run_step. auto 10.
Qed.

(** C7.  On a frame of type system_status, system_started or system_stopped
    the next status is the frame's data field itself, whatever the status
    was before. *)
Theorem status_event_replaces_status
  (st : state) (event_data : string) (data : value) (type : string) :
  JSON_parse event_data = Some data ->
  type ∈ status_types ->
  own data "type" = VStr type ->
  systemStatus (after st (onmessage gateway JSON_parse event_data))
    = own data "data".
Proof.
  intros Hparse Htype Hown.
  assert (nullish data = false) as Hobj.
  { destruct data; try reflexivity; discriminate. }
  unfold onmessage. rewrite Hparse, bind_ret.
  rewrite !(prop_defined _ _ Hobj), bind_ret, Hown.
  unfold status_types in Htype.
  repeat (apply elem_of_cons in Htype as [-> | Htype]);
    [reflexivity | reflexivity | reflexivity |].
  now apply elem_of_nil in Htype.
Qed.

(** What each collection fetch does when its request is rejected. *)
Lemma fetchApplicants_rejected (response : option value) :
  gateway (Get "/applicants") = Rejected response ->
  effects (fetchApplicants gateway) =
    [ Call (Get "/applicants");
      console_error "Error fetching applicants:";
      setMessage (VStr "Error fetching applicants") "error";
      setTimeout 5000 ].
Proof. intros H. unfold fetchApplicants. run_step. now rewrite H. Qed.

Lemma fetchCredentials_rejected (response : option value) :
  gateway (Get "/credentials") = Rejected response ->
  effects (fetchCredentials gateway) =
    [ Call (Get "/credentials");
      console_error "Error fetching credentials:";
      setMessage (VStr "Error fetching credentials") "error";
      setTimeout 5000 ].
Proof. intros H. unfold fetchCredentials. run_step. now rewrite H. Qed.

Lemma fetchSystemStatus_rejected (response : option value) :
  gateway (Get "/bls/status") = Rejected response ->
  effects (fetchSystemStatus gateway) =
    [ Call (Get "/bls/status");
      console_error "Error fetching system status:" ].
Proof. intros H. unfold fetchSystemStatus. run_step. now rewrite H. Qed.

Lemma fetchBookings_rejected (response : option value) :
  gateway (Get "/bls/bookings") = Rejected response ->
  effects (fetchBookings gateway) =
    [ Call (Get "/bls/bookings");
      console_error "Error fetching bookings:" ].
Proof. intros H. unfold fetchBookings. run_step. now rewrite H. Qed.

(** A rejected fetch sends its one request, is not repeated, and leaves the
    snapshot's collections as they were. *)
Lemma rejected_fetch_keeps_collections
  (st : state) (response : option value) :
  (forall path, gateway (Get path) = Rejected response) ->
  Forall
    (fun fetch =>
       length (calls fetch) = 1 /\
       applicants (after st fetch) = applicants st /\
       credentials (after st fetch) = credentials st /\
       systemStatus (after st fetch) = systemStatus st /\
       bookings (after st fetch) = bookings st)
    [ fetchApplicants gateway; fetchCredentials gateway;
      fetchSystemStatus gateway; fetchBookings gateway ].
Proof.
  intros Hdown.
  repeat constructor; unfold calls, after;
    rewrite ?(fetchApplicants_rejected _ (Hdown _)),
            ?(fetchCredentials_rejected _ (Hdown _)),
            ?(fetchSystemStatus_rejected _ (Hdown _)),
            ?(fetchBookings_rejected _ (Hdown _));
    reflexivity.
Qed.

(** The two fetches that do tell the operator. *)
Lemma rejected_fetch_notified (response : option value) :
  (forall path, gateway (Get path) = Rejected response) ->
  notifications (fetchApplicants gateway) =
    [setMessage (VStr "Error fetching applicants") "error"] /\
  notifications (fetchCredentials gateway) =
    [setMessage (VStr "Error fetching credentials") "error"].
Proof.
  intros Hdown. unfold notifications.
  rewrite (fetchApplicants_rejected _ (Hdown _)),
          (fetchCredentials_rejected _ (Hdown _)).
  split; reflexivity.
Qed.

(** C8 (the code at the failing input).  When the Gateway rejects the
    status and bookings requests, fetchSystemStatus and fetchBookings write
    to the console only: the operator gets no notification. *)
Theorem rejected_status_and_bookings_fetch_silent (response : option value) :
  (forall path, gateway (Get path) = Rejected response) ->
  notifications (fetchSystemStatus gateway) = [] /\
  notifications (fetchBookings gateway) = [].
Proof.
  intros Hdown. unfold notifications.
  rewrite (fetchSystemStatus_rejected _ (Hdown _)),
          (fetchBookings_rejected _ (Hdown _)).
  split; reflexivity.
Qed.

End LiveSync.

(** ** Editing the draft *)

Section Draft.

Variable gateway : request -> reply.

(** The Validator is asked once, about the category and history it is
    handed, and with the location of the snapshot the caller closed over. *)
Lemma validateCategory_calls (st : state) (category history : string) :
  calls (validateCategory gateway st category history) =
    [ Post "/bls/validate-category"
        (ValidateBody (location (bookingForm st)) category history) ].
Proof.
  unfold validateCategory. run_step.
  destruct (gateway _) as [data | response]; run_step; [|reflexivity].
  destruct (nullish data) eqn:Hnull.
  - rewrite (prop_nullish _ _ Hnull). reflexivity.
  - rewrite !(prop_defined _ _ Hnull). run_step.
    destruct (truthy (own data "is_valid")); reflexivity.
Qed.

(** Asking the Validator does not write the draft. *)
Lemma validateCategory_keeps_form
  (st st' : state) (category history : string) :
  bookingForm
    (foldl apply st' (effects (validateCategory gateway st category history)))
  = bookingForm st'.
Proof.
  unfold validateCategory. run_step.
  destruct (gateway _) as [data | response]; run_step; [|reflexivity].
  destruct (nullish data) eqn:Hnull.
  - rewrite (prop_nullish _ _ Hnull). reflexivity.
  - rewrite !(prop_defined _ _ Hnull). run_step.
    destruct (truthy (own data "is_valid")); reflexivity.
Qed.

Lemma first_category_head (categories : list string) (c : string) :
  head categories = Some c -> c <> EmptyString ->
  first_category categories = c /\ c ∈ categories.
Proof.
  destruct categories as [|c' rest]; [discriminate|].
  intros [= ->] Hne. split; [|apply list_elem_of_here].
  destruct c; [congruence | reflexivity].
Qed.

Lemma first_category_fallback (categories : list string) :
  head categories = None \/ head categories = Some EmptyString ->
  first_category categories = "ORAN 1".
Proof.
  destruct categories as [|c rest]; [reflexivity|].
  intros [H | [= ->]]; [discriminate | reflexivity].
Qed.

(** The run of the Validator call. *)
Lemma validateCategory_run (st : state) (category history : string) :
  validateCategory gateway st category history =
  Run [Call (validate_request st category history)]
      match gateway (validate_request st category history) with
      | Resolved data =>
          setCategoryValidation data ::
          (if nullish data
           then [console_error "Error validating category:"]
           else if truthy (own data "is_valid") then []
           else [setMessage (own data "message") "error"; setTimeout 5000])
      | Rejected _ => [console_error "Error validating category:"]
      end
      true (Done tt).
Proof.
  unfold validateCategory, validate_request. run_step.
  destruct (gateway _) as [data | response]; run_step; [|reflexivity].
  destruct (nullish data) eqn:Hnull.
  - now rewrite (prop_nullish _ _ Hnull).
  - rewrite !(prop_defined _ _ Hnull). run_step.
    now destruct (truthy (own data "is_valid")).
Qed.

(** C3, amended.  With the visa information loaded, a location change sets
    the draft's location; resets the category to the first entry of the new
    location's list when that entry exists and is not the empty string, so
    that the category is then a member of the list; falls back to the
    literal ORAN 1 when the list is empty, missing or starts with the empty
    string, ending normally all the same and signalling nothing of its own:
    in every case its whole trace is the draft update, one Validator request
    about the new category and the draft's current Schengen history, and
    what validateCategory does with the reply. *)
Theorem handleLocationChange_resets_category
  (st : state) (info : VisaInfo) (loc : string) :
  visaInfo st = Some info ->
  ending (handleLocationChange gateway st loc) = Done tt /\
  location (bookingForm (after st (handleLocationChange gateway st loc)))
    = loc /\
  (forall c, head (categories_of info loc) = Some c -> c <> EmptyString ->
     category (bookingForm (after st (handleLocationChange gateway st loc)))
       = c /\
     category (bookingForm (after st (handleLocationChange gateway st loc)))
       ∈ categories_of info loc) /\
  (head (categories_of info loc) = None \/
   head (categories_of info loc) = Some EmptyString ->
     category (bookingForm (after st (handleLocationChange gateway st loc)))
       = "ORAN 1") /\
  (exists l,
     calls (handleLocationChange gateway st loc) =
       [ Post "/bls/validate-category"
           (ValidateBody l
              (category
                 (bookingForm
                    (after st (handleLocationChange gateway st loc))))
              (schengen_visa_history (bookingForm st))) ] /\
     effects (handleLocationChange gateway st loc) =
       setBookingForm
         (bookingForm (after st (handleLocationChange gateway st loc))) ::
       Call (Post "/bls/validate-category"
               (ValidateBody l
                  (category
                     (bookingForm
                        (after st (handleLocationChange gateway st loc))))
                  (schengen_visa_history (bookingForm st)))) ::
       validation_outcome
         (gateway
            (Post "/bls/validate-category"
               (ValidateBody l
                  (category
                     (bookingForm
                        (after st (handleLocationChange gateway st loc))))
                  (schengen_visa_history (bookingForm st)))))).
Proof.
  intros Hinfo.
  assert (bookingForm (after st (handleLocationChange gateway st loc)) =
          with_location_category (bookingForm st) loc
            (first_category (categories_of info loc))) as Hform.
  { unfold handleLocationChange, after. rewrite Hinfo, effects_emit_spawn.
    cbn [foldl]. now rewrite validateCategory_keeps_form. }
  rewrite Hform. cbn [location category with_location_category].
  split.
  { unfold handleLocationChange. rewrite Hinfo.
    destruct (validateCategory _ _ _ _) as [s d b o]. reflexivity. }
  split; [reflexivity|]. split; [|split].
  - intros c Hhead Hne.
    destruct (first_category_head _ _ Hhead Hne) as [-> Hin]. auto.
  - apply first_category_fallback.
  - exists (location (bookingForm st)). split.
    + unfold handleLocationChange. rewrite Hinfo.
      unfold calls. rewrite effects_emit_spawn. cbn [omap list_omap].
      apply validateCategory_calls.
    + unfold handleLocationChange. rewrite Hinfo, effects_emit_spawn.
      rewrite validateCategory_run. reflexivity.
Qed.

(** The Validator request of a location change still names the location of
    the draft before the change. *)
Lemma handleLocationChange_validates_old_location
  (st : state) (info : VisaInfo) (loc : string) :
  visaInfo st = Some info ->
  calls (handleLocationChange gateway st loc) =
    [ Post "/bls/validate-category"
        (ValidateBody (location (bookingForm st))
           (first_category (categories_of info loc))
           (schengen_visa_history (bookingForm st))) ].
Proof.
  intros Hinfo. unfold handleLocationChange. rewrite Hinfo.
  unfold calls. rewrite effects_emit_spawn. cbn [omap list_omap].
  apply validateCategory_calls.
Qed.

End Draft.

(** ** The number of family members *)

Lemma digit_value_pretty_N_char (d : N) :
  (d < 10)%N -> digit_value 10 (pretty_N_char d) = Some (Z.of_N d).
Proof.
  intros Hd.
  assert (d = 0 \/ d = 1 \/ d = 2 \/ d = 3 \/ d = 4 \/ d = 5 \/ d = 6
          \/ d = 7 \/ d = 8 \/ d = 9)%N as Hcases by lia.
  repeat destruct Hcases as [-> | Hcases]; try reflexivity.
  now subst.
Qed.

(** Reading back the digits that [pretty] writes in front of [s]. *)
Lemma parse_digits_pretty_N_go (x : N) :
  (0 < x)%N ->
  exists k : Z, forall (acc : option Z) (s : string),
    parse_digits 10 acc (pretty_N_go x s) =
    parse_digits 10 (Some (k * default 0 acc + Z.of_N x)%Z) s.
Proof.
  induction (N.lt_wf_0 x) as [x _ IH]. intros Hpos.
  assert (x < 10 \/ 10 <= x)%N as [Hsmall | Hbig] by lia.
  - exists 10%Z. intros acc s.
    rewrite pretty_N_go_step by done.
    rewrite (N.div_small x 10 Hsmall), pretty_N_go_0, (N.mod_small x 10 Hsmall).
    cbn [parse_digits].
    now rewrite digit_value_pretty_N_char.
  - assert (0 < x `div` 10)%N as Hdiv by (apply N.div_str_pos; lia).
    destruct (IH (x `div` 10)%N) as [k Hk]; [apply N.div_lt; lia | done |].
    exists (10 * k)%Z. intros acc s.
    rewrite pretty_N_go_step, Hk by done. cbn [parse_digits].
    rewrite digit_value_pretty_N_char by (apply N.mod_lt; lia).
    cbn [default]. unfold id. do 2 f_equal.
    pose proof (N.div_mod x 10 ltac:(lia)) as Hdm. lia.
Qed.

(** [pretty] starts a positive number with a digit from 1 to 9. *)
Lemma pretty_N_go_leading (x : N) :
  (0 < x)%N ->
  forall s, exists (d : N) (rest : string),
    (0 < d < 10)%N /\ pretty_N_go x s = String (pretty_N_char d) rest.
Proof.
  induction (N.lt_wf_0 x) as [x _ IH]. intros Hpos s.
  rewrite pretty_N_go_step by done.
  assert (x < 10 \/ 10 <= x)%N as [Hsmall | Hbig] by lia.
  - rewrite (N.div_small x 10 Hsmall), pretty_N_go_0, (N.mod_small x 10 Hsmall).
    exists x, s. split; [lia | reflexivity].
  - apply IH; [apply N.div_lt; lia | apply N.div_str_pos; lia].
Qed.

Lemma parseInt_leading_digit (d : N) (rest : string) :
  (0 < d < 10)%N ->
  parseInt (String (pretty_N_char d) rest) =
  match parse_digits 10 None (String (pretty_N_char d) rest) with
  | Some n => Int (1 * n)
  | None => NaN
  end.
Proof.
  intros Hd.
  assert (d = 1 \/ d = 2 \/ d = 3 \/ d = 4 \/ d = 5 \/ d = 6
          \/ d = 7 \/ d = 8 \/ d = 9)%N as Hcases by lia.
  repeat destruct Hcases as [-> | Hcases]; try reflexivity; now subst.
Qed.

Lemma parseInt_minus_leading_digit (d : N) (rest : string) :
  (0 < d < 10)%N ->
  parseInt (String "-" (String (pretty_N_char d) rest)) =
  match parse_digits 10 None (String (pretty_N_char d) rest) with
  | Some n => Int (-1 * n)
  | None => NaN
  end.
Proof.
  intros Hd.
  assert (d = 1 \/ d = 2 \/ d = 3 \/ d = 4 \/ d = 5 \/ d = 6
          \/ d = 7 \/ d = 8 \/ d = 9)%N as Hcases by lia.
  repeat destruct Hcases as [-> | Hcases]; try reflexivity; now subst.
Qed.

(** parseInt reads back the decimal form of every integer. *)
Lemma parseInt_pretty (n : Z) : parseInt (pretty n) = Int n.
Proof.
  destruct n as [|p|p]; [reflexivity|..].
  - unfold pretty, pretty_Z, pretty, pretty_positive, pretty, pretty_N.
    rewrite decide_False by done.
    destruct (pretty_N_go_leading (N.pos p) ltac:(lia) EmptyString)
      as (d & rest & Hd & Hlead).
    destruct (parse_digits_pretty_N_go (N.pos p) ltac:(lia)) as [k Hk].
    rewrite Hlead, (parseInt_leading_digit d rest Hd), <- Hlead, Hk.
    cbn. f_equal. lia.
  - unfold pretty, pretty_Z, pretty, pretty_positive, pretty, pretty_N.
    rewrite decide_False by done.
    destruct (pretty_N_go_leading (N.pos p) ltac:(lia) EmptyString)
      as (d & rest & Hd & Hlead).
    destruct (parse_digits_pretty_N_go (N.pos p) ltac:(lia)) as [k Hk].
    change ("-" +:+ pretty_N_go (N.pos p) EmptyString)
      with (String "-" (pretty_N_go (N.pos p) EmptyString)).
    rewrite Hlead, (parseInt_minus_leading_digit d rest Hd), <- Hlead, Hk.
    cbn. f_equal. lia.
Qed.

(** C4, amended.  A change of the number-of-members input stores parseInt
    of the entered text in the draft as it is, without clamping: whenever
    parseInt reads an integer of magnitude up to 2^53 that integer is
    stored, whenever it reads no digits NaN is stored, and every integer of
    magnitude up to 2^53 entered in decimal is stored unchanged, whatever
    the draft says the appointment is for. *)
Theorem number_of_members_stored_unclamped
  (st : state) (text : string) (n : Z) :
  safe_integer n ->
  (parseInt text = Int n ->
   number_of_members
     (bookingForm (after st (onChange_number_of_members st text)))
   = Int n) /\
  (parseInt text = NaN ->
   number_of_members
     (bookingForm (after st (onChange_number_of_members st text)))
   = NaN) /\
  number_of_members
    (bookingForm (after st (onChange_number_of_members st (pretty n))))
  = Int n.
Proof.
  intros _. split; [|split].
  - intros <-. reflexivity.
  - intros <-. reflexivity.
  - cbn. apply parseInt_pretty.
Qed.

(** ** Counterexamples *)

(** C4 as stated fails: in a family draft, entering 15 leaves 15 in the
    draft, outside [1,10]. *)
Lemma family_members_15_not_clamped :
  appointment_for (bookingForm family_state) = "Family" /\
  number_of_members
    (bookingForm
       (after family_state (onChange_number_of_members family_state "15")))
  = Int 15 /\
  ~ (1 <= 15 <= 10)%Z.
Proof. split; [reflexivity|]. split; [reflexivity | lia]. Qed.

(** C3 as stated fails: Alger has no categories, and changing the location
    to it leaves ORAN 1 in the draft, which is not in Alger's list, while
    the handler ends normally and nothing is signalled: its whole trace is
    the draft update, the Validator request and the verdict it stores. *)
Lemma location_without_categories_dangles :
  categories_of sample_visaInfo "Alger" = [] /\
  category
    (bookingForm
       (after loaded_state
          (handleLocationChange gateway_up loaded_state "Alger")))
  = "ORAN 1" /\
  (category
     (bookingForm
        (after loaded_state
           (handleLocationChange gateway_up loaded_state "Alger")))
   ∉ categories_of sample_visaInfo "Alger") /\
  ending (handleLocationChange gateway_up loaded_state "Alger") = Done tt /\
  effects (handleLocationChange gateway_up loaded_state "Alger") =
    [ setBookingForm
        (with_location_category initial_bookingForm "Alger" "ORAN 1");
      Call (Post "/bls/validate-category"
              (ValidateBody "Oran" "ORAN 1" "never"));
      setCategoryValidation valid_verdict ].
Proof.
  assert (categories_of sample_visaInfo "Alger" = []) as Hempty
    by (vm_compute; reflexivity).
  split; [exact Hempty|]. split; [vm_compute; reflexivity|].
  split; [rewrite Hempty; apply not_elem_of_nil|].
  split; vm_compute; reflexivity.
Qed.

(** ** The theorems at sample inputs *)

Lemma submit_invalid_sends_nothing_witness :
  verdict_invalid invalid_state /\
  (calls (handleBookAppointment gateway_up invalid_state SubmitEvent) = [] /\
   ending (handleBookAppointment gateway_up invalid_state SubmitEvent)
     = Done tt /\
   showValidationModal
     (after invalid_state
        (handleBookAppointment gateway_up invalid_state SubmitEvent))
     = true).
Proof.
  assert (verdict_invalid invalid_state) as H
    by (split; vm_compute; reflexivity).
  exact (conj H
           (submit_invalid_sends_nothing gateway_up invalid_state
              SubmitEvent H)).
Defined.

Lemma proceedAnyway_invalid_sends_nothing_witness :
  verdict_invalid invalid_state /\
  (calls (proceedAnyway gateway_up invalid_state) = [] /\
   showValidationModal
     (after invalid_state (proceedAnyway gateway_up invalid_state)) = true).
Proof.
  assert (verdict_invalid invalid_state) as H
    by (split; vm_compute; reflexivity).
  exact (conj H (proceedAnyway_invalid_sends_nothing gateway_up
                   invalid_state H)).
Defined.



Lemma unknown_type_changes_nothing_witness :
  parse_json frame_unknown = Some (obj [("type", VStr "booking_failed")]) /\
  recognized (own (obj [("type", VStr "booking_failed")]) "type") = false /\
  (ending (onmessage gateway_up parse_json frame_unknown) = Done tt /\
   calls (onmessage gateway_up parse_json frame_unknown) = [] /\
   applicants
     (after running_state (onmessage gateway_up parse_json frame_unknown))
   = applicants running_state /\
   credentials
     (after running_state (onmessage gateway_up parse_json frame_unknown))
   = credentials running_state /\
   bookings
     (after running_state (onmessage gateway_up parse_json frame_unknown))
   = bookings running_state /\
   systemStatus
     (after running_state (onmessage gateway_up parse_json frame_unknown))
   = systemStatus running_state).
Proof.
  assert (parse_json frame_unknown
          = Some (obj [("type", VStr "booking_failed")])) as Hparse
    by (vm_compute; reflexivity).
  assert (recognized (own (obj [("type", VStr "booking_failed")]) "type")
          = false) as Hunknown
    by (vm_compute; reflexivity).
  exact (conj Hparse (conj Hunknown
           (unknown_type_changes_nothing gateway_up parse_json running_state
              frame_unknown _ Hparse Hunknown))).
Defined.

Lemma malformed_frame_logged_and_dropped_witness :
  parse_json frame_malformed = None /\
  (ending (onmessage gateway_up parse_json frame_malformed) = Done tt /\
   effects (onmessage gateway_up parse_json frame_malformed) =
     [console_log "WebSocket message received:" frame_malformed] /\
   ws_open
     (after running_state (onmessage gateway_up parse_json frame_malformed))
   = ws_open running_state /\
   applicants
     (after running_state (onmessage gateway_up parse_json frame_malformed))
   = applicants running_state /\
   credentials
     (after running_state (onmessage gateway_up parse_json frame_malformed))
   = credentials running_state /\
   bookings
     (after running_state (onmessage gateway_up parse_json frame_malformed))
   = bookings running_state /\
   systemStatus
     (after running_state (onmessage gateway_up parse_json frame_malformed))
   = systemStatus running_state).
Proof.
  assert (parse_json frame_malformed = None) as Hparse
    by (vm_compute; reflexivity).
  exact (conj Hparse
           (malformed_frame_logged_and_dropped gateway_up parse_json
              running_state frame_malformed Hparse)).
Defined.

Lemma status_event_replaces_status_witness :
  parse_json frame_stopped = Some stopped_event /\
  "system_stopped" ∈ status_types /\
  own stopped_event "type" = VStr "system_stopped" /\
  systemStatus
    (after running_state (onmessage gateway_up parse_json frame_stopped))
  = own stopped_event "data".
Proof.
  assert (parse_json frame_stopped = Some stopped_event) as Hparse
    by (vm_compute; reflexivity).
  assert ("system_stopped" ∈ status_types) as Htype
    by (apply list_elem_of_further, list_elem_of_further,
          list_elem_of_here).
  assert (own stopped_event "type" = VStr "system_stopped") as Hown
    by (vm_compute; reflexivity).
  exact (conj Hparse (conj Htype (conj Hown
           (status_event_replaces_status gateway_up parse_json running_state
              frame_stopped stopped_event "system_stopped"
              Hparse Htype Hown)))).
Defined.

Lemma rejected_status_and_bookings_fetch_silent_witness :
  (forall path, gateway_down (Get path) = Rejected None) /\
  (notifications (fetchSystemStatus gateway_down) = [] /\
   notifications (fetchBookings gateway_down) = []).
Proof.
  exact (conj (fun path => eq_refl)
           (rejected_status_and_bookings_fetch_silent gateway_down None
              (fun path => eq_refl))).
Defined.

Lemma number_of_members_stored_unclamped_witness :
  safe_integer 15 /\
  number_of_members
    (bookingForm
       (after family_state (onChange_number_of_members family_state "15")))
  = Int 15 /\
  number_of_members
    (bookingForm
       (after family_state
          (onChange_number_of_members family_state (pretty 15%Z))))
  = Int 15.
Proof.
  assert (safe_integer 15) as Hsafe by (unfold safe_integer; lia).
  destruct (number_of_members_stored_unclamped family_state "15" 15 Hsafe)
    as (Hread & _ & Hdecimal).
  split; [exact Hsafe|]. split; [apply Hread; reflexivity | exact Hdecimal].
Defined.

Lemma handleLocationChange_resets_category_witness :
  visaInfo two_city_state = Some two_city_visaInfo /\
  location
    (bookingForm
       (after two_city_state
          (handleLocationChange gateway_up two_city_state "Alger")))
  = "Alger" /\
  category
    (bookingForm
       (after two_city_state
          (handleLocationChange gateway_up two_city_state "Alger")))
  = "ALGIERS 1" /\
  category
    (bookingForm
       (after two_city_state
          (handleLocationChange gateway_up two_city_state "Alger")))
  ∈ categories_of two_city_visaInfo "Alger" /\
  (exists l,
     effects (handleLocationChange gateway_up two_city_state "Alger") =
       [ setBookingForm
           (with_location_category initial_bookingForm "Alger" "ALGIERS 1");
         Call (Post "/bls/validate-category"
                 (ValidateBody l "ALGIERS 1" "never"));
         setCategoryValidation valid_verdict ]).
Proof.
  pose proof (handleLocationChange_resets_category gateway_up two_city_state
                two_city_visaInfo "Alger" eq_refl)
    as (_ & Hlocation & Hfirst & _ & l & _ & Htrace).
  destruct (Hfirst "ALGIERS 1") as [Hcategory Hmember];
    [vm_compute; reflexivity | discriminate |].
  split; [reflexivity|]. split; [exact Hlocation|].
  split; [exact Hcategory|]. split; [exact Hmember|].
  exists l. rewrite Htrace, Hcategory.
  assert (bookingForm
            (after two_city_state
               (handleLocationChange gateway_up two_city_state "Alger"))
          = with_location_category initial_bookingForm "Alger" "ALGIERS 1")
    as -> by (vm_compute; reflexivity).
  reflexivity.
Defined.

(** * Further properties *)

(** ** Runs in normal form *)

Lemma ending_spawn {A} (m : run A) : ending (spawn m) = Done tt.
Proof. now destruct m. Qed.

Lemma effects_spawn {A} (m : run A) : effects (spawn m) = effects m.
Proof. now destruct m. Qed.

Section FetchRuns.

Variable gateway : request -> reply.

Lemma fetchApplicants_run :
  fetchApplicants gateway =
  Run [Call (Get "/applicants")]
      match gateway (Get "/applicants") with
      | Resolved data => [setApplicants data]
      | Rejected _ =>
          [ console_error "Error fetching applicants:";
            setMessage (VStr "Error fetching applicants") "error";
            setTimeout 5000 ]
      end
      true (Done tt).
Proof. unfold fetchApplicants. run_step. now destruct (gateway _). Qed.

Lemma fetchCredentials_run :
  fetchCredentials gateway =
  Run [Call (Get "/credentials")]
      match gateway (Get "/credentials") with
      | Resolved data => [setCredentials data]
      | Rejected _ =>
          [ console_error "Error fetching credentials:";
            setMessage (VStr "Error fetching credentials") "error";
            setTimeout 5000 ]
      end
      true (Done tt).
Proof. unfold fetchCredentials. run_step. now destruct (gateway _). Qed.

Lemma fetchSystemStatus_run :
  fetchSystemStatus gateway =
  Run [Call (Get "/bls/status")]
      match gateway (Get "/bls/status") with
      | Resolved data => [setSystemStatus data]
      | Rejected _ => [console_error "Error fetching system status:"]
      end
      true (Done tt).
Proof. unfold fetchSystemStatus. run_step. now destruct (gateway _). Qed.

Lemma fetchBookings_run :
  fetchBookings gateway =
  Run [Call (Get "/bls/bookings")]
      match gateway (Get "/bls/bookings") with
      | Resolved data => [setBookings data]
      | Rejected _ => [console_error "Error fetching bookings:"]
      end
      true (Done tt).
Proof. unfold fetchBookings. run_step. now destruct (gateway _). Qed.

End FetchRuns.

(** ** More on the live synchronisation core *)

Section LiveSyncMore.

Variable gateway : request -> reply.
Variable JSON_parse : string -> option value.

(** What the handler does on a frame that carries a type string. *)
Lemma onmessage_typed (event_data : string) (data : value) (type : string) :
  JSON_parse event_data = Some data ->
  own data "type" = VStr type ->
  onmessage gateway JSON_parse event_data =
  try_catch
    (if is_str (VStr type) "applicant_created"
        || is_str (VStr type) "applicant_updated"
     then spawn (fetchApplicants gateway)
     else if is_str (VStr type) "credential_created"
             || is_str (VStr type) "credential_updated"
     then spawn (fetchCredentials gateway)
     else if is_str (VStr type) "system_status"
             || is_str (VStr type) "system_started"
             || is_str (VStr type) "system_stopped"
     then emit (setSystemStatus (own data "data"))
     else if is_str (VStr type) "booking_completed"
     then (spawn (fetchBookings gateway) >>
           showMessage (VStr "Booking completed successfully!") "success")
     else ret tt)
    (fun error =>
       emit (console_log "WebSocket message received:" event_data)).
Proof.
  intros Hparse Hown.
  assert (nullish data = false) as Hobj
    by (destruct data; try reflexivity; discriminate).
  unfold onmessage.
  rewrite Hparse, bind_ret, !(prop_defined _ _ Hobj), !bind_ret, Hown.
  reflexivity.
Qed.

(** X1.  The push handler never raises: whatever the frame, whatever
    JSON.parse makes of it and whatever the Gateway answers to a re-fetch,
    it ends normally. *)
Theorem onmessage_never_throws (event_data : string) :
  ending (onmessage gateway JSON_parse event_data) = Done tt.
Proof.
  unfold onmessage.
  destruct (JSON_parse event_data) as [data|]; [|reflexivity].
  rewrite bind_ret.
  destruct (nullish data) eqn:Hnull.
  { now rewrite (prop_nullish _ _ Hnull). }
  rewrite !(prop_defined _ _ Hnull), !bind_ret.
  repeat match goal with
         | |- context [if ?c then _ else _] => destruct c
         end;
    rewrite ?fetchApplicants_run, ?fetchCredentials_run, ?fetchBookings_run;
    reflexivity.
Qed.



(** Split a membership in a literal list into its cases. *)
Ltac literal_cases H :=
  repeat (apply elem_of_cons in H as [-> | H]);
  [.. | now apply elem_of_nil in H].

(** X2.  A typed frame re-fetches exactly the collection of its entity:
    applicant frames send one GET /applicants, credential frames one
    GET /credentials, booking_completed one GET /bls/bookings, and status
    frames send nothing. *)
Theorem push_frame_requests
  (event_data : string) (data : value) (type : string) :
  JSON_parse event_data = Some data ->
  own data "type" = VStr type ->
  (type ∈ applicant_types ->
   calls (onmessage gateway JSON_parse event_data) = [Get "/applicants"]) /\
  (type ∈ credential_types ->
   calls (onmessage gateway JSON_parse event_data) = [Get "/credentials"]) /\
  (type = "booking_completed" ->
   calls (onmessage gateway JSON_parse event_data) = [Get "/bls/bookings"]) /\
  (type ∈ status_types ->
   calls (onmessage gateway JSON_parse event_data) = []).
Proof.
  intros Hparse Hown. rewrite (onmessage_typed _ _ _ Hparse Hown).
  repeat split; intros Htype.
  - unfold applicant_types in Htype. literal_cases Htype;
      cbn; rewrite fetchApplicants_run; now destruct (gateway _).
  - unfold credential_types in Htype. literal_cases Htype;
      cbn; rewrite fetchCredentials_run; now destruct (gateway _).
  - subst type. cbn. rewrite fetchBookings_run. now destruct (gateway _).
  - unfold status_types in Htype. literal_cases Htype; reflexivity.
Qed.

(** X3.  An applicant frame replaces the applicants with the reply to the
    re-fetch, as it is, or keeps them when the re-fetch is rejected; a
    credential frame does the same for the credentials.  Neither writes any
    other collection. *)
Theorem entity_frame_replaces_collection
  (st : state) (event_data : string) (data : value) (type : string) :
  JSON_parse event_data = Some data ->
  own data "type" = VStr type ->
  (type ∈ applicant_types ->
   applicants (after st (onmessage gateway JSON_parse event_data)) =
     match gateway (Get "/applicants") with
     | Resolved reply => reply
     | Rejected _ => applicants st
     end /\
   credentials (after st (onmessage gateway JSON_parse event_data))
     = credentials st /\
   bookings (after st (onmessage gateway JSON_parse event_data))
     = bookings st /\
   systemStatus (after st (onmessage gateway JSON_parse event_data))
     = systemStatus st) /\
  (type ∈ credential_types ->
   credentials (after st (onmessage gateway JSON_parse event_data)) =
     match gateway (Get "/credentials") with
     | Resolved reply => reply
     | Rejected _ => credentials st
     end /\
   applicants (after st (onmessage gateway JSON_parse event_data))
     = applicants st /\
   bookings (after st (onmessage gateway JSON_parse event_data))
     = bookings st /\
   systemStatus (after st (onmessage gateway JSON_parse event_data))
     = systemStatus st).
Proof.
  intros Hparse Hown. rewrite (onmessage_typed _ _ _ Hparse Hown).
  split; intros Htype.
  - unfold applicant_types in Htype. literal_cases Htype;
      cbn; rewrite fetchApplicants_run; now destruct (gateway _).
  - unfold credential_types in Htype. literal_cases Htype;
      cbn; rewrite fetchCredentials_run; now destruct (gateway _).
Qed.

(** X4.  A booking_completed frame shows the success toast and nothing else,
    whether or not the re-fetch of the bookings succeeds; the bookings
    become the reply to the re-fetch, or stay when it is rejected, and no
    other collection is written. *)
Theorem booking_completed_toast_and_refetch
  (st : state) (event_data : string) (data : value) :
  JSON_parse event_data = Some data ->
  own data "type" = VStr "booking_completed" ->
  notifications (onmessage gateway JSON_parse event_data) =
    [setMessage (VStr "Booking completed successfully!") "success"] /\
  bookings (after st (onmessage gateway JSON_parse event_data)) =
    match gateway (Get "/bls/bookings") with
    | Resolved reply => reply
    | Rejected _ => bookings st
    end /\
  applicants (after st (onmessage gateway JSON_parse event_data))
    = applicants st /\
  credentials (after st (onmessage gateway JSON_parse event_data))
    = credentials st /\
  systemStatus (after st (onmessage gateway JSON_parse event_data))
    = systemStatus st.
Proof.
  intros Hparse Hown. rewrite (onmessage_typed _ _ _ Hparse Hown).
  cbn. rewrite fetchBookings_run. now destruct (gateway _).
Qed.

(** X5.  A status frame writes the status only: the applicants, credentials
    and bookings stay as they were, and so does the draft. *)
Theorem status_frame_writes_status_only
  (st : state) (event_data : string) (data : value) (type : string) :
  JSON_parse event_data = Some data ->
  own data "type" = VStr type ->
  type ∈ status_types ->
  after st (onmessage gateway JSON_parse event_data) =
    apply st (setSystemStatus (own data "data")).
Proof.
  intros Hparse Hown Htype. rewrite (onmessage_typed _ _ _ Hparse Hown).
  unfold status_types in Htype. literal_cases Htype; reflexivity.
Qed.

End LiveSyncMore.

(** ** More on the booking draft controller *)

Section ControllerMore.

Variable gateway : request -> reply.

(** The run of a submission that passes the verdict check. *)
Lemma handleBookAppointment_run (st : state) (e : event) :
  verdict_valid st ->
  handleBookAppointment gateway st e =
  Run (effects (e_preventDefault e) ++
       [setLoading true; Call (book_appointment (bookingForm st))])
      match gateway (book_appointment (bookingForm st)) with
      | Resolved data =>
          if nullish data
          then [ setMessage (VStr "Error booking appointment") "error";
                 setTimeout 5000;
                 console_error "Error booking appointment:";
                 setLoading false ]
          else [ setMessage
                   (VStr ("Appointment booking completed! ID: "
                          +:+ ToString (own data "booking_id")))
                   "success";
                 setTimeout 5000;
                 setLoading false ]
      | Rejected response =>
          [ setMessage
              (js_or (error_detail (RequestFailed response))
                     (VStr "Error booking appointment"))
              "error";
            setTimeout 5000;
            console_error "Error booking appointment:";
            setLoading false ]
      end
      true (Done tt).
Proof.
  intros [Hobj Htrue]. unfold handleBookAppointment, book_appointment.
  rewrite (prop_defined _ _ Hobj).
  destruct e; run_step; rewrite Htrue; run_step;
    (destruct (gateway _) as [data | response]; run_step; [|reflexivity]);
    (destruct (nullish data) eqn:Hnull;
     [rewrite (prop_nullish _ _ Hnull) | rewrite (prop_defined _ _ Hnull)]);
    reflexivity.
Qed.

(** The run of a submission that the verdict holds back. *)
Lemma handleBookAppointment_held_back (st : state) (e : event) :
  verdict_invalid st ->
  handleBookAppointment gateway st e =
  Run (effects (e_preventDefault e) ++ [setShowValidationModal true])
      [] false (Done tt).
Proof.
  intros [Hobj Hfalse]. unfold handleBookAppointment.
  rewrite (prop_defined _ _ Hobj).
  destruct e; cbn; rewrite Hfalse; reflexivity.
Qed.

(** X7.  A submission writes neither the draft nor the verdict nor any
    collection, whatever the verdict is and whatever the Gateway answers:
    in particular the form keeps its values after a booking. *)
Theorem submit_keeps_draft_and_collections (st : state) (e : event) :
  bookingForm (after st (handleBookAppointment gateway st e))
    = bookingForm st /\
  categoryValidation (after st (handleBookAppointment gateway st e))
    = categoryValidation st /\
  applicants (after st (handleBookAppointment gateway st e))
    = applicants st /\
  credentials (after st (handleBookAppointment gateway st e))
    = credentials st /\
  bookings (after st (handleBookAppointment gateway st e))
    = bookings st /\
  systemStatus (after st (handleBookAppointment gateway st e))
    = systemStatus st.
Proof.
  destruct (nullish (categoryValidation st)) eqn:Hnull.
  { unfold handleBookAppointment. rewrite (prop_nullish _ _ Hnull).
    destruct e; cbn; auto 10. }
  destruct (truthy (own (categoryValidation st) "is_valid")) eqn:Hvalid.
  - rewrite (handleBookAppointment_run st e (conj Hnull Hvalid)).
    destruct e; (destruct (gateway _) as [data | response];
                 [destruct (nullish data)|]); cbn; auto 10.
  - unfold handleBookAppointment. rewrite (prop_defined _ _ Hnull).
    destruct e; cbn; rewrite Hvalid; cbn; auto 10.
Qed.

(** X8.  A submission that passes the verdict check ends with the loading
    flag down and has sent the draft exactly once, whatever the Gateway
    answers. *)
Theorem submit_releases_loading (st : state) (e : event) :
  verdict_valid st ->
  loading (after st (handleBookAppointment gateway st e)) = false /\
  calls (handleBookAppointment gateway st e)
    = [book_appointment (bookingForm st)].
Proof.
  intros Hvalid. rewrite (handleBookAppointment_run st e Hvalid).
  destruct e; (destruct (gateway _) as [data | response];
               [destruct (nullish data)|]); cbn; auto.
Qed.

(** X9.  While the booking request is in flight the loading flag is up, the
    form's submit button is disabled, and activating it sends nothing. *)
Theorem in_flight_blocks_second_submit (st : state) (e : event) :
  verdict_valid st ->
  loading (foldl apply st (sync (handleBookAppointment gateway st e)))
    = true /\
  ending
    (submit_disabled
       (foldl apply st (sync (handleBookAppointment gateway st e))))
    = Done true /\
  calls
    (click_submit gateway
       (foldl apply st (sync (handleBookAppointment gateway st e))))
    = [].
Proof.
  intros Hvalid. rewrite (handleBookAppointment_run st e Hvalid).
  assert (loading
            (foldl apply st
               (effects (e_preventDefault e) ++
                [setLoading true; Call (book_appointment (bookingForm st))]))
          = true) as Hloading
    by (destruct e; reflexivity).
  cbn [sync]. split; [exact Hloading|].
  unfold click_submit, submit_disabled. rewrite Hloading. auto.
Qed.

(** X10.  With the automation running, no request in flight, a valid
    verdict and a draft that meets the form's constraints (not a Family
    draft, or a member count from 1 to 10), activating the form's submit
    button sends the draft, as it is, exactly once. *)
Theorem click_submit_sends_draft_once (st : state) :
  loading st = false ->
  nullish (systemStatus st) = false ->
  truthy (own (systemStatus st) "is_running") = true ->
  verdict_valid st ->
  form_constraints_met (bookingForm st) = true ->
  calls (click_submit gateway st) = [book_appointment (bookingForm st)].
Proof.
  intros Hloading Hobj Hrunning Hvalid _.
  unfold click_submit, submit_disabled.
  rewrite Hloading, (prop_defined _ _ Hobj). cbn. rewrite Hrunning. cbn.
  unfold calls. rewrite effects_spawn.
  apply (handleBookAppointment_valid_calls gateway st SubmitEvent Hvalid).
Qed.

(** X11.  When the Gateway rejects the booking, the operator is shown the
    Gateway's own detail if the error reply carries one that is a non-empty
    string, and the fixed text if the reply carries a falsy detail or there
    is no reply at all (a network failure). *)
Theorem rejected_booking_shows_detail
  (st : state) (e : event) (response : option value) :
  verdict_valid st ->
  gateway (book_appointment (bookingForm st)) = Rejected response ->
  (forall reply c text,
     response = Some reply ->
     opt_prop reply "detail" = VStr (String c text) ->
     notifications (handleBookAppointment gateway st e) =
       [setMessage (VStr (String c text)) "error"]) /\
  (forall reply,
     response = Some reply -> truthy (opt_prop reply "detail") = false ->
     notifications (handleBookAppointment gateway st e) =
       [setMessage (VStr "Error booking appointment") "error"]) /\
  (response = None ->
   notifications (handleBookAppointment gateway st e) =
     [setMessage (VStr "Error booking appointment") "error"]).
Proof.
  intros Hvalid Hreply.
  rewrite (handleBookAppointment_run st e Hvalid), Hreply.
  unfold notifications, effects, error_detail, js_or. cbn [sync deferred].
  repeat split.
  - intros reply c text -> Hdetail. rewrite Hdetail.
    destruct e; reflexivity.
  - intros reply -> Hdetail. rewrite Hdetail. destruct e; reflexivity.
  - intros ->. destruct e; reflexivity.
Qed.

(** X12.  A booking reply that resolves with null (or undefined) data is
    reported to the operator as an error, although the Gateway accepted the
    request. *)
Theorem accepted_without_body_reported_as_error
  (st : state) (e : event) (data : value) :
  verdict_valid st ->
  gateway (book_appointment (bookingForm st)) = Resolved data ->
  nullish data = true ->
  notifications (handleBookAppointment gateway st e) =
    [setMessage (VStr "Error booking appointment") "error"].
Proof.
  intros Hvalid Hreply Hnull.
  rewrite (handleBookAppointment_run st e Hvalid), Hreply, Hnull.
  destruct e; reflexivity.
Qed.

End ControllerMore.

(** ** More on editing the draft *)

Section DraftMore.

Variable gateway : request -> reply.


(** X13.  The Validator's reply is stored as the verdict, as it is, and
    when its message is a string the operator is shown that message exactly
    when is_valid is falsy and the message is not empty. *)
Theorem verdict_stored_and_shown_when_invalid
  (st : state) (category history : string) (data : value) (text : string) :
  gateway (validate_request st category history) = Resolved data ->
  nullish data = false ->
  own data "message" = VStr text ->
  categoryValidation (after st (validateCategory gateway st category history))
    = data /\
  notifications (validateCategory gateway st category history) =
    if truthy (own data "is_valid") then []
    else match text with
         | EmptyString => []
         | String _ _ => [setMessage (VStr text) "error"]
         end.
Proof.
  intros Hreply Hobj Htext.
  rewrite (validateCategory_run gateway), Hreply, Hobj, Htext.
  split.
  - now destruct (truthy (own data "is_valid")).
  - destruct (truthy (own data "is_valid")); [reflexivity|].
    now destruct text.
Qed.

(** X14.  When the validation request is rejected nothing is written and
    nothing is shown: the previous verdict stays in force. *)
Theorem rejected_validation_changes_nothing
  (st : state) (category history : string) (response : option value) :
  gateway (validate_request st category history) = Rejected response ->
  after st (validateCategory gateway st category history) = st /\
  notifications (validateCategory gateway st category history) = [].
Proof.
  intros Hreply. rewrite validateCategory_run, Hreply. split; reflexivity.
Qed.

(** X15.  A category change and a history change write only their own field
    of the draft, and the one Validator request they send describes the
    draft as it is after the change. *)
Theorem change_validates_resulting_draft (st : state) (text : string) :
  bookingForm (after st (handleCategoryChange gateway st text))
    = with_category (bookingForm st) text /\
  calls (handleCategoryChange gateway st text) =
    [ Post "/bls/validate-category"
        (ValidateBody
           (location
              (bookingForm (after st (handleCategoryChange gateway st text))))
           (category
              (bookingForm (after st (handleCategoryChange gateway st text))))
           (schengen_visa_history
              (bookingForm
                 (after st (handleCategoryChange gateway st text))))) ] /\
  bookingForm (after st (handleSchengenHistoryChange gateway st text))
    = with_schengen_visa_history (bookingForm st) text /\
  calls (handleSchengenHistoryChange gateway st text) =
    [ Post "/bls/validate-category"
        (ValidateBody
           (location
              (bookingForm
                 (after st (handleSchengenHistoryChange gateway st text))))
           (category
              (bookingForm
                 (after st (handleSchengenHistoryChange gateway st text))))
           (schengen_visa_history
              (bookingForm
                 (after st
                    (handleSchengenHistoryChange gateway st text))))) ].
Proof.
  assert (bookingForm (after st (handleCategoryChange gateway st text))
          = with_category (bookingForm st) text) as Hcat.
  { unfold handleCategoryChange, after. rewrite effects_emit_spawn.
    cbn [foldl]. now rewrite validateCategory_keeps_form. }
  assert (bookingForm (after st (handleSchengenHistoryChange gateway st text))
          = with_schengen_visa_history (bookingForm st) text) as Hhist.
  { unfold handleSchengenHistoryChange, after. rewrite effects_emit_spawn.
    cbn [foldl]. now rewrite validateCategory_keeps_form. }
  rewrite Hcat, Hhist. repeat split.
  - unfold handleCategoryChange, calls. rewrite effects_emit_spawn.
    cbn [omap list_omap]. apply validateCategory_calls.
  - unfold handleSchengenHistoryChange, calls. rewrite effects_emit_spawn.
    cbn [omap list_omap]. apply validateCategory_calls.
Qed.

(** The state after a category change. *)
Lemma handleCategoryChange_after (st : state) (text : string) :
  after st (handleCategoryChange gateway st text) =
  foldl apply
    (apply st (setBookingForm (with_category (bookingForm st) text)))
    (deferred
       (validateCategory gateway st text
          (schengen_visa_history (bookingForm st)))).
Proof.
  unfold handleCategoryChange, after. rewrite effects_emit_spawn.
  now rewrite validateCategory_run.
Qed.

(** X16.  After a category change, a submission follows the verdict that the
    Validator returned for it: a truthy is_valid lets the changed draft go
    out, a falsy one holds it back and raises the modal. *)
Theorem submit_follows_latest_verdict
  (st : state) (text : string) (e : event) (data : value) :
  gateway
    (validate_request st text (schengen_visa_history (bookingForm st)))
    = Resolved data ->
  nullish data = false ->
  (truthy (own data "is_valid") = true ->
   calls
     (handleBookAppointment gateway
        (after st (handleCategoryChange gateway st text)) e)
   = [book_appointment (with_category (bookingForm st) text)]) /\
  (truthy (own data "is_valid") = false ->
   calls
     (handleBookAppointment gateway
        (after st (handleCategoryChange gateway st text)) e)
   = [] /\
   showValidationModal
     (after (after st (handleCategoryChange gateway st text))
        (handleBookAppointment gateway
           (after st (handleCategoryChange gateway st text)) e))
   = true).
Proof.
  intros Hreply Hobj.
  assert (categoryValidation (after st (handleCategoryChange gateway st text))
          = data /\
          bookingForm (after st (handleCategoryChange gateway st text))
          = with_category (bookingForm st) text) as [Hverdict Hform].
  { rewrite handleCategoryChange_after, validateCategory_run, Hreply, Hobj.
    now destruct (truthy (own data "is_valid")). }
  split; intros Hvalid.
  - rewrite handleBookAppointment_valid_calls, Hform; [reflexivity|].
    split; now rewrite Hverdict.
  - rewrite handleBookAppointment_held_back by (split; now rewrite Hverdict).
    destruct e; split; reflexivity.
Qed.

(** X17.  When the validation request of a category change is rejected, the
    verdict of the previous selection stays in force: under a valid one the
    changed draft can be submitted without having been validated. *)
Theorem failed_validation_keeps_stale_verdict
  (st : state) (text : string) (e : event) (response : option value) :
  gateway
    (validate_request st text (schengen_visa_history (bookingForm st)))
    = Rejected response ->
  verdict_valid st ->
  categoryValidation (after st (handleCategoryChange gateway st text))
    = categoryValidation st /\
  calls
    (handleBookAppointment gateway
       (after st (handleCategoryChange gateway st text)) e)
  = [book_appointment (with_category (bookingForm st) text)].
Proof.
  intros Hreply Hvalid.
  assert (after st (handleCategoryChange gateway st text)
          = apply st (setBookingForm (with_category (bookingForm st) text)))
    as Hafter.
  { now rewrite handleCategoryChange_after, validateCategory_run, Hreply. }
  rewrite Hafter. split; [reflexivity|].
  now rewrite handleBookAppointment_valid_calls.
Qed.

(** X18.  A Validator reply of null is stored as the verdict all the same,
    and the next render of the booking form raises a TypeError where it
    reads is_valid off the verdict. *)
Theorem null_verdict_breaks_render
  (st : state) (text : string) (data : value) :
  gateway
    (validate_request st text (schengen_visa_history (bookingForm st)))
    = Resolved data ->
  nullish data = true ->
  categoryValidation (after st (handleCategoryChange gateway st text))
    = data /\
  ending
    (category_select_border
       (after st (handleCategoryChange gateway st text)))
  = Thrown TypeError.
Proof.
  intros Hreply Hnull.
  assert (categoryValidation (after st (handleCategoryChange gateway st text))
          = data) as Hverdict.
  { now rewrite handleCategoryChange_after, (validateCategory_run gateway),
      Hreply, Hnull. }
  split; [exact Hverdict|].
  unfold category_select_border.
  rewrite (prop_nullish (categoryValidation _) _) by now rewrite Hverdict.
  reflexivity.
Qed.

End DraftMore.

(** ** Starting and stopping the automation, and the credentials *)

Section Commands.

Variable gateway : request -> reply.

Lemma handleStartSystem_run :
  handleStartSystem gateway =
  Run [setLoading true; Call (Post "/bls/start" NoBody)]
      match gateway (Post "/bls/start" NoBody) with
      | Resolved _ =>
          [ setMessage (VStr "BLS automation system started!") "success";
            setTimeout 5000 ] ++
          effects (fetchSystemStatus gateway) ++ [setLoading false]
      | Rejected _ =>
          [ setMessage (VStr "Error starting system") "error";
            setTimeout 5000;
            console_error "Error starting system:";
            setLoading false ]
      end
      true (Done tt).
Proof.
  unfold handleStartSystem. rewrite fetchSystemStatus_run. run_step.
  destruct (gateway (Post _ _)); run_step; [|reflexivity].
  now destruct (gateway (Get _)).
Qed.

Lemma handleStopSystem_run :
  handleStopSystem gateway =
  Run [setLoading true; Call (Post "/bls/stop" NoBody)]
      match gateway (Post "/bls/stop" NoBody) with
      | Resolved _ =>
          [ setMessage (VStr "BLS automation system stopped!") "success";
            setTimeout 5000 ] ++
          effects (fetchSystemStatus gateway) ++ [setLoading false]
      | Rejected _ =>
          [ setMessage (VStr "Error stopping system") "error";
            setTimeout 5000;
            console_error "Error stopping system:";
            setLoading false ]
      end
      true (Done tt).
Proof.
  unfold handleStopSystem. rewrite fetchSystemStatus_run. run_step.
  destruct (gateway (Post _ _)); run_step; [|reflexivity].
  now destruct (gateway (Get _)).
Qed.

(** X19.  Starting or stopping never writes the status from its own reply:
    when the command is rejected the status stays as it was and is not
    re-fetched; when it is accepted the status becomes the reply to the
    following GET /bls/status, or stays when that is rejected.  Either way
    the loading flag ends down. *)
Theorem start_stop_status_comes_from_refetch (st : state) :
  (loading (after st (handleStartSystem gateway)) = false /\
   match gateway (Post "/bls/start" NoBody) with
   | Rejected _ =>
       calls (handleStartSystem gateway) = [Post "/bls/start" NoBody] /\
       systemStatus (after st (handleStartSystem gateway)) = systemStatus st
   | Resolved _ =>
       calls (handleStartSystem gateway) =
         [Post "/bls/start" NoBody; Get "/bls/status"] /\
       systemStatus (after st (handleStartSystem gateway)) =
         match gateway (Get "/bls/status") with
         | Resolved status => status
         | Rejected _ => systemStatus st
         end
   end) /\
  (loading (after st (handleStopSystem gateway)) = false /\
   match gateway (Post "/bls/stop" NoBody) with
   | Rejected _ =>
       calls (handleStopSystem gateway) = [Post "/bls/stop" NoBody] /\
       systemStatus (after st (handleStopSystem gateway)) = systemStatus st
   | Resolved _ =>
       calls (handleStopSystem gateway) =
         [Post "/bls/stop" NoBody; Get "/bls/status"] /\
       systemStatus (after st (handleStopSystem gateway)) =
         match gateway (Get "/bls/status") with
         | Resolved status => status
         | Rejected _ => systemStatus st
         end
   end).
Proof.
  rewrite handleStartSystem_run, handleStopSystem_run, fetchSystemStatus_run.
  split;
    (destruct (gateway (Post _ _)); [destruct (gateway (Get _))|]);
    repeat split; reflexivity.
Qed.

(** X20.  What the operator is told after a start or stop depends on the
    command only: a success toast when it was accepted, even if the status
    re-fetch then fails, and an error toast when it was rejected. *)
Theorem start_stop_toast :
  notifications (handleStartSystem gateway) =
    match gateway (Post "/bls/start" NoBody) with
    | Resolved _ =>
        [setMessage (VStr "BLS automation system started!") "success"]
    | Rejected _ => [setMessage (VStr "Error starting system") "error"]
    end /\
  notifications (handleStopSystem gateway) =
    match gateway (Post "/bls/stop" NoBody) with
    | Resolved _ =>
        [setMessage (VStr "BLS automation system stopped!") "success"]
    | Rejected _ => [setMessage (VStr "Error stopping system") "error"]
    end.
Proof.
  rewrite handleStartSystem_run, handleStopSystem_run, fetchSystemStatus_run.
  split; (destruct (gateway (Post _ _)); [destruct (gateway (Get _))|]);
    reflexivity.
Qed.







End Commands.

(** ** The table of BookingHistory *)

Lemma ending_bind {A B} (m : run A) (f : A -> run B) :
  ending (bind m f) =
  match ending m with
  | Done a => ending (f a)
  | Thrown e => Thrown e
  end.
Proof.
  destruct m as [s d b [a|e]]; [|reflexivity].
  cbn. destruct (f a) as [s' d' b' o]. now destruct b.
Qed.

Lemma booking_row_ending (booking : value) :
  ending (booking_row booking) =
  match own booking "id" with
  | VStr text => Done (row_of booking text)
  | _ => Thrown TypeError
  end.
Proof.
  unfold booking_row. destruct (nullish booking) eqn:Hnull.
  - rewrite (prop_nullish _ _ Hnull).
    destruct booking; try discriminate; reflexivity.
  - rewrite (prop_defined _ _ Hnull), bind_ret.
    now destruct (own booking "id").
Qed.

Lemma map_run_ending {A B} (f : A -> run B) (l : list A) (ys : list B) :
  ending (map_run f l) = Done ys <->
  Forall2 (fun x y => ending (f x) = Done y) l ys.
Proof.
  revert ys. induction l as [|x l IH]; intros ys; cbn [map_run].
  - split.
    + intros [= <-]. constructor.
    + intros H. inversion H. reflexivity.
  - rewrite ending_bind. split.
    + destruct (ending (f x)) as [y|] eqn:Hy; [|discriminate].
      rewrite ending_bind.
      destruct (ending (map_run f l)) as [ys'|] eqn:Hrest; [|discriminate].
      intros [= <-]. constructor; [exact Hy|]. now apply IH.
    + intros H. inversion H as [|? y ? ys' Hy Hrest]; subst.
      rewrite Hy, ending_bind.
      apply IH in Hrest. now rewrite Hrest.
Qed.

(** X23.  The bookings table raises as soon as one entry of the
    collection has no string id (an entry that is null, has no id, or has a
    numeric one), wherever in the collection it stands. *)
Theorem BookingHistory_needs_string_ids
  (l : list value) (booking : value) :
  booking ∈ l ->
  (forall text, own booking "id" <> VStr text) ->
  ending (BookingHistory (VArr l)) = Thrown TypeError.
Proof.
  intros Hin Hid.
  assert (ending (map_run booking_row l) = Thrown TypeError) as Hrows.
  { induction l as [|first rest IH]; [now apply elem_of_nil in Hin|].
    cbn [map_run]. rewrite ending_bind, booking_row_ending.
    apply elem_of_cons in Hin as [<- | Hin].
    - destruct (own booking "id") as [| | | |text| |]; try reflexivity.
      now destruct (Hid text).
    - destruct (own first "id"); try reflexivity.
      now rewrite ending_bind, (IH Hin). }
  unfold BookingHistory. now rewrite ending_bind, Hrows.
Qed.

(** X24.  A table that renders has one row per booking, in the order of the
    collection, each row being the row of its booking, and shows the "no
    bookings" notice exactly when the collection is empty. *)
Theorem BookingHistory_rows_follow_collection
  (l : list value) (rows : list BookingRow) (notice : bool) :
  ending (BookingHistory (VArr l)) = Done (rows, notice) ->
  length rows = length l /\
  (forall i booking row,
     l !! i = Some booking -> rows !! i = Some row ->
     ending (booking_row booking) = Done row) /\
  (notice = true <-> l = []).
Proof.
  unfold BookingHistory. rewrite ending_bind.
  destruct (ending (map_run booking_row l)) as [rows'|] eqn:Hrows;
    [|discriminate].
  intros [= <- <-]. apply map_run_ending in Hrows.
  split; [symmetry; now apply Forall2_length in Hrows|].
  split.
  - intros i booking row Hb Hr.
    now apply (Forall2_lookup_lr _ _ _ _ _ _ Hrows Hb Hr).
  - apply bool_decide_eq_true.
Qed.

(** X25.  A booking that carries nothing but a string id (of ASCII
    characters) still gets a row: the first eight characters of the id and
    three dots, N/A in the location, visa type, category and history cells,
    the red badge with the label Unknown, and no date. *)
Theorem bare_booking_row (booking : value) (text : string) :
  own booking "id" = VStr text ->
  is_ascii text = true ->
  own booking "booking_details" = VUndefined ->
  own booking "booking_request" = VUndefined ->
  own booking "status" = VUndefined ->
  own booking "created_at" = VUndefined ->
  ending (booking_row booking) =
    Done {| row_id := substring 0 8 text +:+ "...";
            row_location := VStr "N/A";
            row_visa_type := VStr "N/A";
            row_category := VStr "N/A";
            row_schengen_history := VStr "N/A";
            row_status_class := "bg-red-100 text-red-800";
            row_status := VStr "Unknown";
            row_date := None |}.
Proof.
  intros Hid _ Hdetails Hrequest Hstatus Hdate.
  rewrite booking_row_ending, Hid. unfold row_of, details_or_request.
  now rewrite Hdetails, Hrequest, Hstatus, Hdate.
Qed.

(** X26.  The history cell is read from booking_details only: a booking
    without booking_details shows N/A there whatever its booking_request
    holds, while its location cell does fall back on the location of
    booking_request. *)
Theorem history_not_read_from_request
  (booking : value) (text : string) (row : BookingRow) :
  own booking "id" = VStr text ->
  nullish (own booking "booking_details") = true ->
  ending (booking_row booking) = Done row ->
  row_schengen_history row = VStr "N/A" /\
  (forall v,
     opt_prop (own booking "booking_request") "location" = v ->
     truthy v = true ->
     row_location row = v).
Proof.
  intros Hid Hdetails. rewrite booking_row_ending, Hid. intros [= <-].
  cbn [row_of row_schengen_history row_location].
  unfold details_or_request, opt_prop at 1. rewrite Hdetails.
  split; [reflexivity|].
  intros v <- Hv. unfold opt_prop at 1. rewrite Hdetails.
  unfold js_or at 2. cbn [truthy]. unfold js_or. now rewrite Hv.
Qed.

Section BookingsReply.

Variable gateway : request -> reply.

(** X27.  The reply to the bookings fetch is stored without being looked at:
    when it resolves with something that is not an array, that becomes the
    collection and the bookings table then raises on render. *)
Theorem non_array_bookings_reply_breaks_table (st : state) (data : value) :
  gateway (Get "/bls/bookings") = Resolved data ->
  (forall l, data <> VArr l) ->
  bookings (after st (fetchBookings gateway)) = data /\
  ending (BookingHistory (bookings (after st (fetchBookings gateway))))
    = Thrown TypeError.
Proof.
  intros Hreply Hshape.
  assert (bookings (after st (fetchBookings gateway)) = data) as ->
    by now rewrite fetchBookings_run, Hreply.
  split; [reflexivity|].
  destruct data; try reflexivity. now destruct (Hshape l).
Qed.

(** X28.  A fetch that resolves replaces its own collection with the reply,
    as it is, writes nothing else and shows no toast. *)
Theorem resolved_fetch_replaces_collection (st : state) (data : value) :
  (forall path, gateway (Get path) = Resolved data) ->
  after st (fetchApplicants gateway) = apply st (setApplicants data) /\
  after st (fetchCredentials gateway) = apply st (setCredentials data) /\
  after st (fetchSystemStatus gateway) = apply st (setSystemStatus data) /\
  after st (fetchBookings gateway) = apply st (setBookings data) /\
  notifications (fetchApplicants gateway) = [] /\
  notifications (fetchCredentials gateway) = [] /\
  notifications (fetchSystemStatus gateway) = [] /\
  notifications (fetchBookings gateway) = [].
Proof.
  intros Hup.
  rewrite fetchApplicants_run, fetchCredentials_run, fetchSystemStatus_run,
    fetchBookings_run, !Hup.
  repeat split; reflexivity.
Qed.

End BookingsReply.

(** ** The further properties at sample inputs *)

Lemma push_frame_requests_witness :
  parse_json frame_applicant = Some applicant_event /\
  own applicant_event "type" = VStr "applicant_created" /\
  calls (onmessage gateway_full parse_json frame_applicant)
    = [Get "/applicants"].
Proof.
  assert (parse_json frame_applicant = Some applicant_event) as Hparse
    by (vm_compute; reflexivity).
  assert (own applicant_event "type" = VStr "applicant_created") as Hown
    by (vm_compute; reflexivity).
  exact (conj Hparse (conj Hown
           (proj1 (push_frame_requests gateway_full parse_json
                     frame_applicant applicant_event "applicant_created"
                     Hparse Hown)
              (list_elem_of_here _ _)))).
Defined.

Lemma entity_frame_replaces_collection_witness :
  parse_json frame_applicant = Some applicant_event /\
  own applicant_event "type" = VStr "applicant_created" /\
  applicants
    (after running_state (onmessage gateway_full parse_json frame_applicant))
  = VArr [obj [("id", VStr "a-1"); ("first_name", VStr "Amina")]].
Proof.
  assert (parse_json frame_applicant = Some applicant_event) as Hparse
    by (vm_compute; reflexivity).
  assert (own applicant_event "type" = VStr "applicant_created") as Hown
    by (vm_compute; reflexivity).
  exact (conj Hparse (conj Hown
           (proj1
              (proj1 (entity_frame_replaces_collection gateway_full
                        parse_json running_state frame_applicant
                        applicant_event "applicant_created" Hparse Hown)
                 (list_elem_of_here _ _))))).
Defined.

Lemma booking_completed_toast_and_refetch_witness :
  parse_json frame_booking = Some booking_event /\
  own booking_event "type" = VStr "booking_completed" /\
  notifications (onmessage gateway_down parse_json frame_booking) =
    [setMessage (VStr "Booking completed successfully!") "success"] /\
  bookings
    (after running_state (onmessage gateway_full parse_json frame_booking))
  = sample_bookings.
Proof.
  assert (parse_json frame_booking = Some booking_event) as Hparse
    by (vm_compute; reflexivity).
  assert (own booking_event "type" = VStr "booking_completed") as Hown
    by (vm_compute; reflexivity).
  exact (conj Hparse (conj Hown
           (conj
              (proj1 (booking_completed_toast_and_refetch gateway_down
                        parse_json running_state frame_booking booking_event
                        Hparse Hown))
              (proj1 (proj2 (booking_completed_toast_and_refetch gateway_full
                               parse_json running_state frame_booking
                               booking_event Hparse Hown)))))).
Defined.

Lemma status_frame_writes_status_only_witness :
  parse_json frame_stopped = Some stopped_event /\
  own stopped_event "type" = VStr "system_stopped" /\
  "system_stopped" ∈ status_types /\
  after running_state (onmessage gateway_up parse_json frame_stopped) =
    apply running_state (setSystemStatus (own stopped_event "data")).
Proof.
  assert (parse_json frame_stopped = Some stopped_event) as Hparse
    by (vm_compute; reflexivity).
  assert (own stopped_event "type" = VStr "system_stopped") as Hown
    by (vm_compute; reflexivity).
  assert ("system_stopped" ∈ status_types) as Htype
    by (apply list_elem_of_further, list_elem_of_further,
          list_elem_of_here).
  exact (conj Hparse (conj Hown (conj Htype
           (status_frame_writes_status_only gateway_up parse_json
              running_state frame_stopped stopped_event "system_stopped"
              Hparse Hown Htype)))).
Defined.

Lemma resolved_fetch_replaces_collection_witness :
  (forall path, gateway_const sample_bookings (Get path)
                = Resolved sample_bookings) /\
  after initial_state (fetchBookings (gateway_const sample_bookings))
    = apply initial_state (setBookings sample_bookings).
Proof.
  exact (conj (fun path => eq_refl)
           (proj1 (proj2 (proj2 (proj2
              (resolved_fetch_replaces_collection
                 (gateway_const sample_bookings) initial_state
                 sample_bookings (fun path => eq_refl))))))).
Defined.

Lemma non_array_bookings_reply_breaks_table_witness :
  gateway_const error_reply (Get "/bls/bookings") = Resolved error_reply /\
  (forall l, error_reply <> VArr l) /\
  ending
    (BookingHistory
       (bookings
          (after initial_state (fetchBookings (gateway_const error_reply)))))
  = Thrown TypeError.
Proof.
  assert (forall l, error_reply <> VArr l) as Hshape
    by (intros l; discriminate).
  exact (conj eq_refl (conj Hshape
           (proj2 (non_array_bookings_reply_breaks_table
                     (gateway_const error_reply) initial_state error_reply
                     eq_refl Hshape)))).
Defined.

Lemma submit_releases_loading_witness :
  verdict_valid running_state /\
  loading
    (after running_state
       (handleBookAppointment gateway_refuses running_state SubmitEvent))
  = false.
Proof.
  assert (verdict_valid running_state) as H
    by (split; vm_compute; reflexivity).
  exact (conj H
           (proj1 (submit_releases_loading gateway_refuses running_state
                     SubmitEvent H))).
Defined.

Lemma in_flight_blocks_second_submit_witness :
  verdict_valid running_state /\
  calls
    (click_submit gateway_up
       (foldl apply running_state
          (sync (handleBookAppointment gateway_up running_state
                   SubmitEvent))))
  = [].
Proof.
  assert (verdict_valid running_state) as H
    by (split; vm_compute; reflexivity).
  exact (conj H
           (proj2 (proj2 (in_flight_blocks_second_submit gateway_up
                            running_state SubmitEvent H)))).
Defined.

Lemma click_submit_sends_draft_once_witness :
  loading running_state = false /\
  nullish (systemStatus running_state) = false /\
  truthy (own (systemStatus running_state) "is_running") = true /\
  verdict_valid running_state /\
  form_constraints_met (bookingForm running_state) = true /\
  calls (click_submit gateway_up running_state)
    = [book_appointment (bookingForm running_state)].
Proof.
  assert (truthy (own (systemStatus running_state) "is_running") = true)
    as Hrunning by (vm_compute; reflexivity).
  assert (verdict_valid running_state) as H
    by (split; vm_compute; reflexivity).
  assert (form_constraints_met (bookingForm running_state) = true) as Hform
    by (vm_compute; reflexivity).
  exact (conj eq_refl (conj eq_refl (conj Hrunning (conj H (conj Hform
           (click_submit_sends_draft_once gateway_up running_state
              eq_refl eq_refl Hrunning H Hform)))))).
Defined.

Lemma rejected_booking_shows_detail_witness :
  verdict_valid running_state /\
  gateway_refuses (book_appointment (bookingForm running_state))
    = Rejected (Some (obj [("detail", VStr "No slots available")])) /\
  opt_prop (obj [("detail", VStr "No slots available")]) "detail"
    = VStr "No slots available" /\
  notifications
    (handleBookAppointment gateway_refuses running_state SubmitEvent)
  = [setMessage (VStr "No slots available") "error"].
Proof.
  assert (verdict_valid running_state) as H
    by (split; vm_compute; reflexivity).
  assert (opt_prop (obj [("detail", VStr "No slots available")]) "detail"
          = VStr "No slots available") as Hdetail
    by (vm_compute; reflexivity).
  exact (conj H (conj eq_refl (conj Hdetail
           (proj1 (rejected_booking_shows_detail gateway_refuses
                     running_state SubmitEvent _ H eq_refl)
              _ _ _ eq_refl Hdetail)))).
Defined.

Lemma accepted_without_body_reported_as_error_witness :
  verdict_valid running_state /\
  gateway_const VNull (book_appointment (bookingForm running_state))
    = Resolved VNull /\
  nullish VNull = true /\
  notifications
    (handleBookAppointment (gateway_const VNull) running_state SubmitEvent)
  = [setMessage (VStr "Error booking appointment") "error"].
Proof.
  assert (verdict_valid running_state) as H
    by (split; vm_compute; reflexivity).
  exact (conj H (conj eq_refl (conj eq_refl
           (accepted_without_body_reported_as_error (gateway_const VNull)
              running_state SubmitEvent VNull H eq_refl eq_refl)))).
Defined.

Lemma verdict_stored_and_shown_when_invalid_witness :
  gateway_strict (validate_request loaded_state "ORAN 1" "rejected")
    = Resolved invalid_verdict /\
  nullish invalid_verdict = false /\
  own invalid_verdict "message"
    = VStr "ORAN 1 is for applicants without a prior visa" /\
  categoryValidation
    (after loaded_state
       (validateCategory gateway_strict loaded_state "ORAN 1" "rejected"))
  = invalid_verdict /\
  notifications
    (validateCategory gateway_strict loaded_state "ORAN 1" "rejected")
  = [setMessage (VStr "ORAN 1 is for applicants without a prior visa")
       "error"].
Proof.
  assert (own invalid_verdict "message"
          = VStr "ORAN 1 is for applicants without a prior visa") as Htext
    by (vm_compute; reflexivity).
  destruct (verdict_stored_and_shown_when_invalid gateway_strict
              loaded_state "ORAN 1" "rejected" invalid_verdict _
              eq_refl eq_refl Htext) as [Hstored Hshown].
  split; [reflexivity|]. split; [reflexivity|]. split; [exact Htext|].
  split; [exact Hstored|].
  rewrite Hshown. vm_compute. reflexivity.
Defined.

Lemma rejected_validation_changes_nothing_witness :
  gateway_down (validate_request loaded_state "ORAN 2" "never")
    = Rejected None /\
  after loaded_state
    (validateCategory gateway_down loaded_state "ORAN 2" "never")
  = loaded_state.
Proof.
  exact (conj eq_refl
           (proj1 (rejected_validation_changes_nothing gateway_down
                     loaded_state "ORAN 2" "never" None eq_refl))).
Defined.

Lemma submit_follows_latest_verdict_witness :
  gateway_strict
    (validate_request loaded_state "ORAN 2"
       (schengen_visa_history (bookingForm loaded_state)))
    = Resolved invalid_verdict /\
  nullish invalid_verdict = false /\
  truthy (own invalid_verdict "is_valid") = false /\
  calls
    (handleBookAppointment gateway_strict
       (after loaded_state
          (handleCategoryChange gateway_strict loaded_state "ORAN 2"))
       SubmitEvent)
  = [].
Proof.
  assert (truthy (own invalid_verdict "is_valid") = false) as Hfalse
    by (vm_compute; reflexivity).
  exact (conj eq_refl (conj eq_refl (conj Hfalse
           (proj1
              (proj2 (submit_follows_latest_verdict gateway_strict
                        loaded_state "ORAN 2" SubmitEvent invalid_verdict
                        eq_refl eq_refl)
                 Hfalse))))).
Defined.

Lemma failed_validation_keeps_stale_verdict_witness :
  gateway_down
    (validate_request loaded_state "ORAN 2"
       (schengen_visa_history (bookingForm loaded_state)))
    = Rejected None /\
  verdict_valid loaded_state /\
  calls
    (handleBookAppointment gateway_down
       (after loaded_state
          (handleCategoryChange gateway_down loaded_state "ORAN 2"))
       SubmitEvent)
  = [book_appointment (with_category (bookingForm loaded_state) "ORAN 2")].
Proof.
  assert (verdict_valid loaded_state) as H
    by (split; vm_compute; reflexivity).
  exact (conj eq_refl (conj H
           (proj2 (failed_validation_keeps_stale_verdict gateway_down
                     loaded_state "ORAN 2" SubmitEvent None eq_refl H)))).
Defined.

Lemma null_verdict_breaks_render_witness :
  gateway_const VNull
    (validate_request loaded_state "ORAN 2"
       (schengen_visa_history (bookingForm loaded_state)))
    = Resolved VNull /\
  nullish VNull = true /\
  ending
    (category_select_border
       (after loaded_state
          (handleCategoryChange (gateway_const VNull) loaded_state "ORAN 2")))
  = Thrown TypeError.
Proof.
  exact (conj eq_refl (conj eq_refl
           (proj2 (null_verdict_breaks_render (gateway_const VNull)
                     loaded_state "ORAN 2" VNull eq_refl eq_refl)))).
Defined.

Lemma BookingHistory_rows_follow_collection_witness :
  exists rows notice,
    ending (BookingHistory (VArr [bare_booking; request_only_booking]))
      = Done (rows, notice) /\
    length rows = 2 /\
    (notice = true <-> [bare_booking; request_only_booking] = []).
Proof.
  eexists. eexists.
  assert (ending (BookingHistory (VArr [bare_booking; request_only_booking]))
          = Done ([row_of bare_booking "b-3";
                   row_of request_only_booking "b-2"], false)) as Hdone
    by (vm_compute; reflexivity).
  pose proof (BookingHistory_rows_follow_collection _ _ _ Hdone)
    as (Hlen & _ & Hnotice).
  split; [exact Hdone|].
  split; [exact Hlen | exact Hnotice].
Defined.

Lemma bare_booking_row_witness :
  own bare_booking "id" = VStr "b-3" /\
  is_ascii "b-3" = true /\
  ending (booking_row bare_booking) =
    Done {| row_id := "b-3...";
            row_location := VStr "N/A";
            row_visa_type := VStr "N/A";
            row_category := VStr "N/A";
            row_schengen_history := VStr "N/A";
            row_status_class := "bg-red-100 text-red-800";
            row_status := VStr "Unknown";
            row_date := None |}.
Proof.
  assert (own bare_booking "id" = VStr "b-3") as Hid
    by (vm_compute; reflexivity).
  split; [exact Hid|]. split; [reflexivity|].
  rewrite (bare_booking_row bare_booking "b-3" Hid);
    [reflexivity | reflexivity | vm_compute; reflexivity ..].
Defined.

Lemma BookingHistory_needs_string_ids_witness :
  idless_booking ∈ [bare_booking; idless_booking] /\
  (forall text, own idless_booking "id" <> VStr text) /\
  ending (BookingHistory (VArr [bare_booking; idless_booking]))
  = Thrown TypeError.
Proof.
  assert (idless_booking ∈ [bare_booking; idless_booking]) as Hin
    by (apply list_elem_of_further, list_elem_of_here).
  assert (forall text, own idless_booking "id" <> VStr text) as Hid
    by (intros text; vm_compute; discriminate).
  exact (conj Hin (conj Hid
           (BookingHistory_needs_string_ids _ _ Hin Hid))).
Defined.

Lemma history_not_read_from_request_witness :
  own request_only_booking "id" = VStr "b-2" /\
  nullish (own request_only_booking "booking_details") = true /\
  row_schengen_history (row_of request_only_booking "b-2") = VStr "N/A" /\
  row_location (row_of request_only_booking "b-2") = VStr "Alger".
Proof.
  assert (own request_only_booking "id" = VStr "b-2") as Hid
    by (vm_compute; reflexivity).
  assert (nullish (own request_only_booking "booking_details") = true)
    as Hdetails by (vm_compute; reflexivity).
  assert (ending (booking_row request_only_booking)
          = Done (row_of request_only_booking "b-2")) as Hrow
    by (vm_compute; reflexivity).
  destruct (history_not_read_from_request request_only_booking "b-2" _
              Hid Hdetails Hrow) as [Hhistory Hlocation].
  split; [exact Hid|]. split; [exact Hdetails|]. split; [exact Hhistory|].
  apply Hlocation; vm_compute; reflexivity.
Defined.
